(** * ShiftRegLCD: an HD44780 character LCD behind an 8-bit shift register

    A shallow embedding of [lib/ShiftRegLCD/ShiftRegLCD.cpp].  The driver
    object is a record of its [uint8_t] members; every member function is a
    computation in a small monad that threads the driver object, logs the
    calls made to the Arduino primitives ([pinMode], [digitalWrite],
    [shiftOut], [delayMicroseconds]) in program order, and fails where the
    C++ code reads outside an array. *)

From Stdlib Require Import ZArith List Bool Lia.
Import ListNotations.
Local Open Scope Z_scope.

(** ** Machine integers *)

(** Conversion to [uint8_t]: every store into a [uint8_t] member, local or
    parameter keeps the low eight bits. *)
Definition u8 (x : Z) : Z := x mod 256.

Definition is_u8 (x : Z) : Prop := 0 <= x < 256.

(** ** Platform constants ([Arduino.h]) *)

(** Modelled from the spec: the two pin levels, the output pin mode and the
    bit order of the platform layer, which is outside the repository.  The
    driver only passes them on, except that [send] tests its [mode]
    argument against zero: [LOW] is the zero level, [HIGH] the other. *)
Definition LOW : Z := 0.
Definition HIGH : Z := 1.
Definition OUTPUT : Z := 1.
Definition MSBFIRST : Z := 1.

(** ** The constants of [ShiftRegLCD.h]

    The header is not among the sources, so the functions below are written
    against an arbitrary header; [ShiftRegLCD_h] further down is the header
    of an HD44780 wired as the comment at the top of the source describes. *)

Class Header : Set := {
  (* commands *)
  LCD_CLEARDISPLAY : Z;
  LCD_RETURNHOME : Z;
  LCD_ENTRYMODESET : Z;
  LCD_DISPLAYCONTROL : Z;
  LCD_CURSORSHIFT : Z;
  LCD_FUNCTIONSET : Z;
  LCD_SETCGRAMADDR : Z;
  LCD_SETDDRAMADDR : Z;
  (* flags for display entry mode *)
  LCD_ENTRYLEFT : Z;
  LCD_ENTRYSHIFTINCREMENT : Z;
  LCD_ENTRYSHIFTDECREMENT : Z;
  (* flags for display on/off control *)
  LCD_DISPLAYON : Z;
  LCD_CURSORON : Z;
  LCD_CURSOROFF : Z;
  LCD_BLINKON : Z;
  LCD_BLINKOFF : Z;
  (* flags for display/cursor shift *)
  LCD_DISPLAYMOVE : Z;
  LCD_MOVERIGHT : Z;
  LCD_MOVELEFT : Z;
  (* flags for function set *)
  LCD_8BITMODE : Z;
  LCD_4BITMODE : Z;
  LCD_2LINE : Z;
  LCD_1LINE : Z;
  LCD_5x10DOTS : Z;
  LCD_5x8DOTS : Z;
  (* shift register wiring *)
  TWO_WIRE : Z;
  SR_RS_BIT : Z;
  SR_EN_BIT : Z
}.

(** Modelled from the spec: the values of [ShiftRegLCD.h], which is missing
    from the sources.  The shift-register bits are the ones the spec's data
    model and the source's opening comment give (bit 2 is register select,
    bit 7 gates the enable pulse); the command opcodes and flags are those
    of the HD44780 instruction set the spec names (function set is
    [0 0 1 DL N F - -], display control [0 0 0 0 1 D C B], entry mode
    [0 0 0 0 0 1 I/D S]); [TWO_WIRE] is the sentinel pin number. *)
Definition ShiftRegLCD_h : Header := {|
  LCD_CLEARDISPLAY := 0x01;
  LCD_RETURNHOME := 0x02;
  LCD_ENTRYMODESET := 0x04;
  LCD_DISPLAYCONTROL := 0x08;
  LCD_CURSORSHIFT := 0x10;
  LCD_FUNCTIONSET := 0x20;
  LCD_SETCGRAMADDR := 0x40;
  LCD_SETDDRAMADDR := 0x80;
  LCD_ENTRYLEFT := 0x02;
  LCD_ENTRYSHIFTINCREMENT := 0x01;
  LCD_ENTRYSHIFTDECREMENT := 0x00;
  LCD_DISPLAYON := 0x04;
  LCD_CURSORON := 0x02;
  LCD_CURSOROFF := 0x00;
  LCD_BLINKON := 0x01;
  LCD_BLINKOFF := 0x00;
  LCD_DISPLAYMOVE := 0x08;
  LCD_MOVERIGHT := 0x04;
  LCD_MOVELEFT := 0x00;
  LCD_8BITMODE := 0x10;
  LCD_4BITMODE := 0x00;
  LCD_2LINE := 0x08;
  LCD_1LINE := 0x00;
  LCD_5x10DOTS := 0x04;
  LCD_5x8DOTS := 0x00;
  TWO_WIRE := 204;
  SR_RS_BIT := 0x04;
  SR_EN_BIT := 0x80
|}.

(** The frame layout of the shift register: bit 2 drives RS, bit 7 gates
    the enable pulse. *)
Definition frame_layout (h : Header) : Prop :=
  @SR_RS_BIT h = 2 ^ 2 /\ @SR_EN_BIT h = 2 ^ 7.

(** ** The driver object *)

Record ShiftRegLCD : Set := mkShiftRegLCD {
  _srdata_pin : Z;
  _srclock_pin : Z;
  _enable_pin : Z;
  _two_wire : Z;
  _displayfunction : Z;
  _displaycontrol : Z;
  _displaymode : Z;
  _numlines : Z
}.

Definition set_srdata_pin (v : Z) (s : ShiftRegLCD) : ShiftRegLCD :=
  mkShiftRegLCD v (_srclock_pin s) (_enable_pin s) (_two_wire s)
    (_displayfunction s) (_displaycontrol s) (_displaymode s) (_numlines s).
Definition set_srclock_pin (v : Z) (s : ShiftRegLCD) : ShiftRegLCD :=
  mkShiftRegLCD (_srdata_pin s) v (_enable_pin s) (_two_wire s)
    (_displayfunction s) (_displaycontrol s) (_displaymode s) (_numlines s).
Definition set_enable_pin (v : Z) (s : ShiftRegLCD) : ShiftRegLCD :=
  mkShiftRegLCD (_srdata_pin s) (_srclock_pin s) v (_two_wire s)
    (_displayfunction s) (_displaycontrol s) (_displaymode s) (_numlines s).
Definition set_two_wire (v : Z) (s : ShiftRegLCD) : ShiftRegLCD :=
  mkShiftRegLCD (_srdata_pin s) (_srclock_pin s) (_enable_pin s) v
    (_displayfunction s) (_displaycontrol s) (_displaymode s) (_numlines s).
Definition set_displayfunction (v : Z) (s : ShiftRegLCD) : ShiftRegLCD :=
  mkShiftRegLCD (_srdata_pin s) (_srclock_pin s) (_enable_pin s) (_two_wire s)
    v (_displaycontrol s) (_displaymode s) (_numlines s).
Definition set_displaycontrol (v : Z) (s : ShiftRegLCD) : ShiftRegLCD :=
  mkShiftRegLCD (_srdata_pin s) (_srclock_pin s) (_enable_pin s) (_two_wire s)
    (_displayfunction s) v (_displaymode s) (_numlines s).
Definition set_displaymode (v : Z) (s : ShiftRegLCD) : ShiftRegLCD :=
  mkShiftRegLCD (_srdata_pin s) (_srclock_pin s) (_enable_pin s) (_two_wire s)
    (_displayfunction s) (_displaycontrol s) v (_numlines s).
Definition set_numlines (v : Z) (s : ShiftRegLCD) : ShiftRegLCD :=
  mkShiftRegLCD (_srdata_pin s) (_srclock_pin s) (_enable_pin s) (_two_wire s)
    (_displayfunction s) (_displaycontrol s) (_displaymode s) v.

(** ** Calls to the platform, and the monad of member functions *)

Inductive event : Set :=
| PinMode (pin mode : Z)
| DigitalWrite (pin level : Z)
| ShiftOut (dataPin clockPin bitOrder val : Z)
| DelayMicroseconds (us : Z).

(** A member function takes the object, and either fails (undefined
    behaviour in the C++ code) or returns its result, the object as it left
    it and the platform calls it made, oldest first. *)
Definition M (A : Type) : Type :=
  ShiftRegLCD -> option (A * ShiftRegLCD * list event).

Definition ret {A} (a : A) : M A := fun s => Some (a, s, []).

Definition bind {A B} (m : M A) (f : A -> M B) : M B :=
  fun s =>
    match m s with
    | None => None
    | Some (a, s1, t1) =>
        match f a s1 with
        | None => None
        | Some (b, s2, t2) => Some (b, s2, t1 ++ t2)
        end
    end.

Definition undefined {A} : M A := fun _ => None.
Definition get {A} (field : ShiftRegLCD -> A) : M A :=
  fun s => Some (field s, s, []).
Definition put (setter : ShiftRegLCD -> ShiftRegLCD) : M unit :=
  fun s => Some (tt, setter s, []).
Definition call (e : event) : M unit := fun s => Some (tt, s, [e]).

Declare Scope lcd_scope.
Delimit Scope lcd_scope with lcd.
Notation "x <- m ;; k" := (bind m (fun x => k))
  (at level 61, m at next level, right associativity) : lcd_scope.
Notation "m ;; k" := (bind m (fun _ => k))
  (at level 61, right associativity) : lcd_scope.
Notation "'when' c 'then' m" := (if c then m else ret tt)
  (at level 60, c at level 9) : lcd_scope.
Local Open Scope lcd_scope.

Definition pinMode (pin mode : Z) : M unit := call (PinMode pin mode).
Definition digitalWrite (pin level : Z) : M unit :=
  call (DigitalWrite pin level).
Definition shiftOut (dataPin clockPin bitOrder val : Z) : M unit :=
  call (ShiftOut dataPin clockPin bitOrder val).
Definition delayMicroseconds (us : Z) : M unit := call (DelayMicroseconds us).

(** C truth value of an integer. *)
Definition truthy (x : Z) : bool := negb (x =? 0).

(** ** The member functions *)

Section Driver.
Context {hdr : Header}.

(** [ShiftRegLCD::send], lines 232-249. *)
Definition send (value mode : Z) : M unit :=
  two_wire <- get _two_wire ;;
  srdata <- get _srdata_pin ;;
  srclock <- get _srclock_pin ;;
  enable <- get _enable_pin ;;
  when (truthy two_wire) then (shiftOut srdata srclock MSBFIRST 0x00) ;;
  digitalWrite enable LOW ;;
  let mode := u8 (if truthy mode then SR_RS_BIT else 0) in
  let val1 := u8 (Z.lor (Z.lor mode SR_EN_BIT)
                        (Z.land (Z.shiftr value 1) 0x78)) in
  let val2 := u8 (Z.lor (Z.lor mode SR_EN_BIT)
                        (Z.land (Z.shiftl value 3) 0x78)) in
  shiftOut srdata srclock MSBFIRST val1 ;;
  digitalWrite enable HIGH ;;
  delayMicroseconds 1 ;;
  digitalWrite enable LOW ;;
  when (truthy two_wire) then (shiftOut srdata srclock MSBFIRST 0x00) ;;
  shiftOut srdata srclock MSBFIRST val2 ;;
  digitalWrite enable HIGH ;;
  delayMicroseconds 1 ;;
  digitalWrite enable LOW ;;
  delayMicroseconds 40.

(** [ShiftRegLCD::init4bits], lines 252-262. *)
Definition init4bits (value : Z) : M unit :=
  two_wire <- get _two_wire ;;
  srdata <- get _srdata_pin ;;
  srclock <- get _srclock_pin ;;
  enable <- get _enable_pin ;;
  when (truthy two_wire) then (shiftOut srdata srclock MSBFIRST 0x00) ;;
  digitalWrite enable LOW ;;
  let val1 := u8 (Z.lor SR_EN_BIT (Z.land (Z.shiftr value 1) 0x78)) in
  shiftOut srdata srclock MSBFIRST val1 ;;
  digitalWrite enable HIGH ;;
  delayMicroseconds 1 ;;
  digitalWrite enable LOW ;;
  delayMicroseconds 40.

(** [ShiftRegLCD::command], lines 222-224. *)
Definition command (value : Z) : M unit := send value LOW.

(** [ShiftRegLCD::write], lines 226-229. *)
Definition write (value : Z) : M Z :=
  send value HIGH ;;
  ret 0.

(** [ShiftRegLCD::clear] and [ShiftRegLCD::home], lines 127-137. *)
Definition clear : M unit :=
  command (u8 LCD_CLEARDISPLAY) ;;
  delayMicroseconds 2000.

Definition home : M unit :=
  command (u8 LCD_RETURNHOME) ;;
  delayMicroseconds 2000.

(** Reading [a[i]]: outside the array the C++ code has no defined result. *)
Definition subscript (a : list Z) (i : Z) : M Z :=
  if i <? 0 then undefined
  else match nth_error a (Z.to_nat i) with
       | Some x => ret x
       | None => undefined
       end.

Definition row_offsets : list Z := [0x00; 0x40; 0x14; 0x54].

(** The row [setCursor] subscripts [row_offsets] with. *)
Definition clamp_row (numlines row : Z) : Z :=
  if row >? numlines then u8 (numlines - 1) else row.

(** [ShiftRegLCD::setCursor], lines 139-146. *)
Definition setCursor (col row : Z) : M unit :=
  numlines <- get _numlines ;;
  let row := clamp_row numlines row in
  offset <- subscript row_offsets row ;;
  command (u8 (Z.lor LCD_SETDDRAMADDR (col + offset))).

(** Lines 149-176: the display-control switches. *)
Definition noDisplay : M unit :=
  dc <- get _displaycontrol ;;
  put (set_displaycontrol (u8 (Z.land dc (Z.lnot LCD_DISPLAYON)))) ;;
  dc <- get _displaycontrol ;;
  command (u8 (Z.lor LCD_DISPLAYCONTROL dc)).

Definition display : M unit :=
  dc <- get _displaycontrol ;;
  put (set_displaycontrol (u8 (Z.lor dc LCD_DISPLAYON))) ;;
  dc <- get _displaycontrol ;;
  command (u8 (Z.lor LCD_DISPLAYCONTROL dc)).

Definition noCursor : M unit :=
  dc <- get _displaycontrol ;;
  put (set_displaycontrol (u8 (Z.land dc (Z.lnot LCD_CURSORON)))) ;;
  dc <- get _displaycontrol ;;
  command (u8 (Z.lor LCD_DISPLAYCONTROL dc)).

Definition cursor : M unit :=
  dc <- get _displaycontrol ;;
  put (set_displaycontrol (u8 (Z.lor dc LCD_CURSORON))) ;;
  dc <- get _displaycontrol ;;
  command (u8 (Z.lor LCD_DISPLAYCONTROL dc)).

Definition noBlink : M unit :=
  dc <- get _displaycontrol ;;
  put (set_displaycontrol (u8 (Z.land dc (Z.lnot LCD_BLINKON)))) ;;
  dc <- get _displaycontrol ;;
  command (u8 (Z.lor LCD_DISPLAYCONTROL dc)).

Definition blink : M unit :=
  dc <- get _displaycontrol ;;
  put (set_displaycontrol (u8 (Z.lor dc LCD_BLINKON))) ;;
  dc <- get _displaycontrol ;;
  command (u8 (Z.lor LCD_DISPLAYCONTROL dc)).

(** Lines 179-184. *)
Definition scrollDisplayLeft : M unit :=
  command (u8 (Z.lor (Z.lor LCD_CURSORSHIFT LCD_DISPLAYMOVE) LCD_MOVELEFT)).

Definition scrollDisplayRight : M unit :=
  command (u8 (Z.lor (Z.lor LCD_CURSORSHIFT LCD_DISPLAYMOVE) LCD_MOVERIGHT)).

(** Lines 187-208: the entry-mode switches. *)
Definition shiftLeft : M unit :=
  dm <- get _displaymode ;;
  put (set_displaymode (u8 (Z.lor dm LCD_ENTRYLEFT))) ;;
  dm <- get _displaymode ;;
  command (u8 (Z.lor LCD_ENTRYMODESET dm)).

Definition shiftRight : M unit :=
  dm <- get _displaymode ;;
  put (set_displaymode (u8 (Z.land dm (Z.lnot LCD_ENTRYLEFT)))) ;;
  dm <- get _displaymode ;;
  command (u8 (Z.lor LCD_ENTRYMODESET dm)).

Definition shiftIncrement : M unit :=
  dm <- get _displaymode ;;
  put (set_displaymode (u8 (Z.lor dm LCD_ENTRYSHIFTINCREMENT))) ;;
  dm <- get _displaymode ;;
  command (u8 (Z.lor LCD_ENTRYMODESET dm)).

Definition shiftDecrement : M unit :=
  dm <- get _displaymode ;;
  put (set_displaymode (u8 (Z.land dm (Z.lnot LCD_ENTRYSHIFTINCREMENT)))) ;;
  dm <- get _displaymode ;;
  command (u8 (Z.lor LCD_ENTRYMODESET dm)).

(** [for (int i = lo; i < lo + count; i++) body(i)]. *)
Fixpoint for_loop (count : nat) (i : Z) (body : Z -> M unit) : M unit :=
  match count with
  | O => ret tt
  | S count' => body i ;; for_loop count' (i + 1) body
  end.

(** [ShiftRegLCD::createChar], lines 211-218. *)
Definition createChar (location : Z) (charmap : list Z) : M unit :=
  let location := u8 (Z.land location 0x7) in
  command (u8 (Z.lor LCD_SETCGRAMADDR (Z.shiftl location 3))) ;;
  for_loop 8 0 (fun i =>
    row <- subscript charmap i ;;
    write row ;;
    ret tt) ;;
  command (u8 LCD_SETDDRAMADDR).

(** [ShiftRegLCD::init], lines 67-123. *)
Definition init (srdata srclock enable lines font : Z) : M unit :=
  put (set_two_wire 0) ;;
  put (set_srdata_pin srdata) ;;
  put (set_srclock_pin srclock) ;;
  put (set_enable_pin enable) ;;
  when (enable =? TWO_WIRE) then (
    srdata_pin <- get _srdata_pin ;;
    put (set_enable_pin srdata_pin) ;;
    put (set_two_wire 1)) ;;
  srclock_pin <- get _srclock_pin ;;
  pinMode srclock_pin OUTPUT ;;
  srdata_pin <- get _srdata_pin ;;
  pinMode srdata_pin OUTPUT ;;
  enable_pin <- get _enable_pin ;;
  pinMode enable_pin OUTPUT ;;
  (if lines >? 1
   then put (set_numlines (u8 LCD_2LINE))
   else put (set_numlines (u8 LCD_1LINE))) ;;
  numlines <- get _numlines ;;
  put (set_displayfunction (u8 (Z.lor LCD_4BITMODE numlines))) ;;
  df <- get _displayfunction ;;
  (if negb (font =? 0)
   then put (set_displayfunction (u8 (Z.lor df LCD_5x10DOTS)))
   else put (set_displayfunction (u8 (Z.lor df LCD_5x8DOTS)))) ;;
  delayMicroseconds 50000 ;;
  init4bits (u8 (Z.lor LCD_FUNCTIONSET LCD_8BITMODE)) ;;
  delayMicroseconds 4500 ;;
  init4bits (u8 (Z.lor LCD_FUNCTIONSET LCD_8BITMODE)) ;;
  delayMicroseconds 150 ;;
  init4bits (u8 (Z.lor LCD_FUNCTIONSET LCD_8BITMODE)) ;;
  init4bits (u8 (Z.lor LCD_FUNCTIONSET LCD_4BITMODE)) ;;
  df <- get _displayfunction ;;
  command (u8 (Z.lor LCD_FUNCTIONSET df)) ;;
  put (set_displaycontrol
         (u8 (Z.lor (Z.lor LCD_DISPLAYON LCD_CURSOROFF) LCD_BLINKOFF))) ;;
  display ;;
  clear ;;
  put (set_displaymode (u8 (Z.lor LCD_ENTRYLEFT LCD_ENTRYSHIFTDECREMENT))) ;;
  dm <- get _displaymode ;;
  command (u8 (Z.lor LCD_ENTRYMODESET dm)) ;;
  home.

(** The constructors, lines 54-64. *)
Definition ShiftRegLCD3 (srdata srclock enable : Z) : M unit :=
  init srdata srclock enable 1 0.
Definition ShiftRegLCD4 (srdata srclock enable lines : Z) : M unit :=
  init srdata srclock enable lines 0.
Definition ShiftRegLCD5 (srdata srclock enable lines font : Z) : M unit :=
  init srdata srclock enable lines font.

End Driver.

(** ** What the hardware sees *)

(** The values shifted into the register, oldest first. *)
Fixpoint shifted (t : list event) : list Z :=
  match t with
  | [] => []
  | ShiftOut _ _ _ v :: t' => v :: shifted t'
  | _ :: t' => shifted t'
  end.

(** The levels written to [pin] with [digitalWrite], oldest first. *)
Fixpoint pin_writes (pin : Z) (t : list event) : list Z :=
  match t with
  | [] => []
  | DigitalWrite p l :: t' =>
      if p =? pin then l :: pin_writes pin t' else pin_writes pin t'
  | _ :: t' => pin_writes pin t'
  end.

(** The frames the controller latches: the register content [reg] each
    time the enable pin [en] is driven to a level other than [LOW]. *)
Fixpoint frames (en reg : Z) (t : list event) : list Z :=
  match t with
  | [] => []
  | ShiftOut _ _ _ v :: t' => frames en v t'
  | DigitalWrite p l :: t' =>
      if (p =? en) && truthy l then reg :: frames en reg t'
      else frames en reg t'
  | _ :: t' => frames en reg t'
  end.

(** Data lines D7..D4 of a frame (register bits 6..3), its RS line
    (register bit 2), and the byte a pair of frames carries. *)
Definition frame_data (f : Z) : Z := Z.land (Z.shiftr f 3) 0xF.
Definition frame_rs (f : Z) : bool := Z.testbit f 2.
Definition frames_byte (upper lower : Z) : Z :=
  Z.lor (Z.shiftl (frame_data upper) 4) (frame_data lower).

(** The check that a byte comes back from the two frames built for it when
    RS is register bit 2 and the enable gate is register bit 7. *)
Definition frame_pair_ok (rs : bool) (v : Z) : bool :=
  let mode := u8 (if rs then 2 ^ 2 else 0) in
  let upper := u8 (Z.lor (Z.lor mode (2 ^ 7)) (Z.land (Z.shiftr v 1) 0x78)) in
  let lower := u8 (Z.lor (Z.lor mode (2 ^ 7)) (Z.land (Z.shiftl v 3) 0x78)) in
  (frames_byte upper lower =? v) &&
  eqb (frame_rs upper) rs && eqb (frame_rs lower) rs.

(** The bytes the controller assembles from the frames it latches, each
    with the RS level of its upper frame: [false] for a command, [true]
    for character data. *)
Fixpoint bytes_of_frames (fs : list Z) : list (bool * Z) :=
  match fs with
  | upper :: lower :: fs' =>
      (frame_rs upper, frames_byte upper lower) :: bytes_of_frames fs'
  | _ => []
  end.

Definition transmitted (en : Z) (t : list event) : list (bool * Z) :=
  bytes_of_frames (frames en 0 t).

(** A shift sequence in which every frame comes right after a shift-out of
    [0x00]. *)
Inductive zero_cleared : list Z -> Prop :=
| zero_cleared_nil : zero_cleared []
| zero_cleared_frame frame rest :
    zero_cleared rest -> zero_cleared (0x00 :: frame :: rest).

(** ** The traces of the two transmission primitives, written out *)

Section Traces.
Context {hdr : Header}.

Definition rs_bit (mode : Z) : Z := u8 (if truthy mode then SR_RS_BIT else 0).

Definition upper_frame (value mode : Z) : Z :=
  u8 (Z.lor (Z.lor (rs_bit mode) SR_EN_BIT) (Z.land (Z.shiftr value 1) 0x78)).

Definition lower_frame (value mode : Z) : Z :=
  u8 (Z.lor (Z.lor (rs_bit mode) SR_EN_BIT) (Z.land (Z.shiftl value 3) 0x78)).

Definition nibble_frame (value : Z) : Z :=
  u8 (Z.lor SR_EN_BIT (Z.land (Z.shiftr value 1) 0x78)).

Definition clear_register (s : ShiftRegLCD) : list event :=
  if truthy (_two_wire s)
  then [ShiftOut (_srdata_pin s) (_srclock_pin s) MSBFIRST 0x00]
  else [].

Definition load (s : ShiftRegLCD) (frame : Z) : event :=
  ShiftOut (_srdata_pin s) (_srclock_pin s) MSBFIRST frame.

Definition strobe (s : ShiftRegLCD) : list event :=
  [DigitalWrite (_enable_pin s) HIGH; DelayMicroseconds 1;
   DigitalWrite (_enable_pin s) LOW].

Definition send_trace (value mode : Z) (s : ShiftRegLCD) : list event :=
  clear_register s ++ [DigitalWrite (_enable_pin s) LOW] ++
  [load s (upper_frame value mode)] ++ strobe s ++
  clear_register s ++
  [load s (lower_frame value mode)] ++ strobe s ++
  [DelayMicroseconds 40].

Definition init4bits_trace (value : Z) (s : ShiftRegLCD) : list event :=
  clear_register s ++ [DigitalWrite (_enable_pin s) LOW] ++
  [load s (nibble_frame value)] ++ strobe s ++
  [DelayMicroseconds 40].

(** ** The switches of the two cached mode masks *)

Inductive mask : Set := DisplayControl | EntryMode.

Inductive switch : Set :=
| NoDisplay | Display | NoCursor | Cursor | NoBlink | Blink
| ShiftLeft | ShiftRight | ShiftIncrement | ShiftDecrement.

Definition run_switch (sw : switch) : M unit :=
  match sw with
  | NoDisplay => noDisplay
  | Display => display
  | NoCursor => noCursor
  | Cursor => cursor
  | NoBlink => noBlink
  | Blink => blink
  | ShiftLeft => shiftLeft
  | ShiftRight => shiftRight
  | ShiftIncrement => shiftIncrement
  | ShiftDecrement => shiftDecrement
  end.

Definition switch_mask (sw : switch) : mask :=
  match sw with
  | NoDisplay | Display | NoCursor | Cursor | NoBlink | Blink => DisplayControl
  | ShiftLeft | ShiftRight | ShiftIncrement | ShiftDecrement => EntryMode
  end.

Definition switch_bit (sw : switch) : Z :=
  match sw with
  | NoDisplay | Display => LCD_DISPLAYON
  | NoCursor | Cursor => LCD_CURSORON
  | NoBlink | Blink => LCD_BLINKON
  | ShiftLeft | ShiftRight => LCD_ENTRYLEFT
  | ShiftIncrement | ShiftDecrement => LCD_ENTRYSHIFTINCREMENT
  end.

Definition switch_sets (sw : switch) : bool :=
  match sw with
  | Display | Cursor | Blink | ShiftLeft | ShiftIncrement => true
  | NoDisplay | NoCursor | NoBlink | ShiftRight | ShiftDecrement => false
  end.

Definition cached (m : mask) (s : ShiftRegLCD) : Z :=
  match m with
  | DisplayControl => _displaycontrol s
  | EntryMode => _displaymode s
  end.

Definition store (m : mask) (v : Z) (s : ShiftRegLCD) : ShiftRegLCD :=
  match m with
  | DisplayControl => set_displaycontrol v s
  | EntryMode => set_displaymode v s
  end.

Definition opcode (m : mask) : Z :=
  match m with
  | DisplayControl => LCD_DISPLAYCONTROL
  | EntryMode => LCD_ENTRYMODESET
  end.

(** The read-modify-write of a switch on the old value of its mask. *)
Definition toggle (sw : switch) (old : Z) : Z :=
  if switch_sets sw
  then u8 (Z.lor old (switch_bit sw))
  else u8 (Z.land old (Z.lnot (switch_bit sw))).

(** The command byte that carries mask [m] as the object caches it. *)
Definition mask_command (m : mask) (s : ShiftRegLCD) : Z :=
  u8 (Z.lor (opcode m) (cached m s)).

Definition mask_eqb (a b : mask) : bool :=
  match a, b with
  | DisplayControl, DisplayControl | EntryMode, EntryMode => true
  | _, _ => false
  end.


(** ** Sessions: the public operations, called one after the other *)

Inductive op : Set :=
| Clear
| Home
| SetCursor (col row : Z)
| Switch (sw : switch)
| ScrollDisplayLeft
| ScrollDisplayRight
| CreateChar (location : Z) (charmap : list Z)
| Command (value : Z)
| Write (value : Z).

Definition exec (o : op) : M unit :=
  match o with
  | Clear => clear
  | Home => home
  | SetCursor col row => setCursor col row
  | Switch sw => run_switch sw
  | ScrollDisplayLeft => scrollDisplayLeft
  | ScrollDisplayRight => scrollDisplayRight
  | CreateChar location charmap => createChar location charmap
  | Command value => command value
  | Write value => write value ;; ret tt
  end.

Fixpoint session (os : list op) : M unit :=
  match os with
  | [] => ret tt
  | o :: os' => exec o ;; session os'
  end.

End Traces.

(** ** What [init] does, written out *)

Section InitDefs.
Context {hdr : Header}.

(** The object [init] leaves behind. *)
Definition constructed (srdata srclock enable lines font : Z) : ShiftRegLCD :=
  let numlines := u8 (if lines >? 1 then LCD_2LINE else LCD_1LINE) in
  {| _srdata_pin := srdata;
     _srclock_pin := srclock;
     _enable_pin := if enable =? TWO_WIRE then srdata else enable;
     _two_wire := if enable =? TWO_WIRE then 1 else 0;
     _displayfunction :=
       u8 (Z.lor (u8 (Z.lor LCD_4BITMODE numlines))
                 (if font =? 0 then LCD_5x8DOTS else LCD_5x10DOTS));
     _displaycontrol :=
       u8 (Z.lor (u8 (Z.lor (Z.lor LCD_DISPLAYON LCD_CURSOROFF) LCD_BLINKOFF))
                 LCD_DISPLAYON);
     _displaymode := u8 (Z.lor LCD_ENTRYLEFT LCD_ENTRYSHIFTDECREMENT);
     _numlines := numlines |}.

(** The handshake that precedes the first full command: pin set-up, the
    power-up wait and the four function-set nibbles. *)
Definition bootstrap_trace (s : ShiftRegLCD) : list event :=
  [PinMode (_srclock_pin s) OUTPUT; PinMode (_srdata_pin s) OUTPUT;
   PinMode (_enable_pin s) OUTPUT; DelayMicroseconds 50000] ++
  init4bits_trace (u8 (Z.lor LCD_FUNCTIONSET LCD_8BITMODE)) s ++
  [DelayMicroseconds 4500] ++
  init4bits_trace (u8 (Z.lor LCD_FUNCTIONSET LCD_8BITMODE)) s ++
  [DelayMicroseconds 150] ++
  init4bits_trace (u8 (Z.lor LCD_FUNCTIONSET LCD_8BITMODE)) s ++
  init4bits_trace (u8 (Z.lor LCD_FUNCTIONSET LCD_4BITMODE)) s.

(** What [init] sends after the function-set command. *)
Definition configure_trace (s : ShiftRegLCD) : list event :=
  send_trace (u8 (Z.lor LCD_DISPLAYCONTROL (_displaycontrol s))) LOW s ++
  send_trace (u8 LCD_CLEARDISPLAY) LOW s ++ [DelayMicroseconds 2000] ++
  send_trace (u8 (Z.lor LCD_ENTRYMODESET (_displaymode s))) LOW s ++
  send_trace (u8 LCD_RETURNHOME) LOW s ++ [DelayMicroseconds 2000].

Definition init_trace (s : ShiftRegLCD) : list event :=
  bootstrap_trace s ++
  send_trace (u8 (Z.lor LCD_FUNCTIONSET (_displayfunction s))) LOW s ++
  configure_trace s.
End InitDefs.


(** ** Wiring *)

(** The members that say how the object is wired to the register. *)
Definition wiring (s : ShiftRegLCD) : Z * Z * Z * Z :=
  (_srdata_pin s, _srclock_pin s, _enable_pin s, _two_wire s).

(** A computation is tidy when it leaves the wiring alone and, in two-wire
    mode, shifts every frame right after a zero. *)
Definition tidy {A} (m : M A) : Prop :=
  forall s a s' t,
    m s = Some (a, s', t) ->
    wiring s' = wiring s /\
    (truthy (_two_wire s) = true -> zero_cleared (shifted t)).


(** ** Scripts: the operations as sequences of whole transmissions *)

(** What a member function does on the wire: a full [send], the
    nibble-only [init4bits], or a wait. *)
Inductive item : Set :=
| Send (value mode : Z)
| Nibble (value : Z)
| Wait (us : Z).

Section Scripts.
Context {hdr : Header}.

Definition play_item (s : ShiftRegLCD) (i : item) : list event :=
  match i with
  | Send value mode => send_trace value mode s
  | Nibble value => init4bits_trace value s
  | Wait us => [DelayMicroseconds us]
  end.

Definition play (s : ShiftRegLCD) (items : list item) : list event :=
  flat_map (play_item s) items.

(** The object an operation leaves and the transmissions it makes, or
    [None] where it reads outside an array. *)
Definition script (o : op) (s : ShiftRegLCD)
  : option (ShiftRegLCD * list item) :=
  match o with
  | Clear => Some (s, [Send (u8 LCD_CLEARDISPLAY) LOW; Wait 2000])
  | Home => Some (s, [Send (u8 LCD_RETURNHOME) LOW; Wait 2000])
  | SetCursor col row =>
      let row := clamp_row (_numlines s) row in
      if (0 <=? row) && (row <? 4)
      then Some (s, [Send (u8 (Z.lor LCD_SETDDRAMADDR
                                 (col + nth (Z.to_nat row) row_offsets 0)))
                       LOW])
      else None
  | Switch sw =>
      let m := switch_mask sw in
      let s' := store m (toggle sw (cached m s)) s in
      Some (s', [Send (mask_command m s') LOW])
  | ScrollDisplayLeft =>
      Some (s, [Send (u8 (Z.lor (Z.lor LCD_CURSORSHIFT LCD_DISPLAYMOVE)
                            LCD_MOVELEFT)) LOW])
  | ScrollDisplayRight =>
      Some (s, [Send (u8 (Z.lor (Z.lor LCD_CURSORSHIFT LCD_DISPLAYMOVE)
                            LCD_MOVERIGHT)) LOW])
  | CreateChar location charmap =>
      if (8 <=? length charmap)%nat
      then Some (s,
                 Send (u8 (Z.lor LCD_SETCGRAMADDR
                             (Z.shiftl (u8 (Z.land location 0x7)) 3))) LOW ::
                 map (fun row => Send row HIGH) (firstn 8 charmap) ++
                 [Send (u8 LCD_SETDDRAMADDR) LOW])
      else None
  | Command value => Some (s, [Send value LOW])
  | Write value => Some (s, [Send value HIGH])
  end.

Fixpoint session_script (os : list op) (s : ShiftRegLCD)
  : option (ShiftRegLCD * list item) :=
  match os with
  | [] => Some (s, [])
  | o :: os' =>
      match script o s with
      | None => None
      | Some (s1, items1) =>
          match session_script os' s1 with
          | None => None
          | Some (s2, items2) => Some (s2, items1 ++ items2)
          end
      end
  end.

(** The transmissions of [init] after it has set the pin modes. *)
Definition init_script (s : ShiftRegLCD) : list item :=
  [Wait 50000;
   Nibble (u8 (Z.lor LCD_FUNCTIONSET LCD_8BITMODE)); Wait 4500;
   Nibble (u8 (Z.lor LCD_FUNCTIONSET LCD_8BITMODE)); Wait 150;
   Nibble (u8 (Z.lor LCD_FUNCTIONSET LCD_8BITMODE));
   Nibble (u8 (Z.lor LCD_FUNCTIONSET LCD_4BITMODE));
   Send (u8 (Z.lor LCD_FUNCTIONSET (_displayfunction s))) LOW;
   Send (u8 (Z.lor LCD_DISPLAYCONTROL (_displaycontrol s))) LOW;
   Send (u8 LCD_CLEARDISPLAY) LOW; Wait 2000;
   Send (u8 (Z.lor LCD_ENTRYMODESET (_displaymode s))) LOW;
   Send (u8 LCD_RETURNHOME) LOW; Wait 2000].

Definition pin_modes (s : ShiftRegLCD) : list event :=
  [PinMode (_srclock_pin s) OUTPUT; PinMode (_srdata_pin s) OUTPUT;
   PinMode (_enable_pin s) OUTPUT].

(** The bytes the transmissions of a script carry, each with the truth
    value of its mode. *)
Definition wire_bytes (items : list item) : list (bool * Z) :=
  flat_map (fun i => match i with
                     | Send value mode => [(truthy mode, value)]
                     | _ => []
                     end) items.

(** The operations whose arguments are passed to the wire as they are:
    these arguments are [uint8_t] in the source. *)
Definition byte_args (o : op) : Prop :=
  match o with
  | Command value | Write value => is_u8 value
  | CreateChar _ charmap => Forall is_u8 charmap
  | _ => True
  end.

(** The switch that undoes a switch. *)
Definition opposite (sw : switch) : switch :=
  match sw with
  | NoDisplay => Display | Display => NoDisplay
  | NoCursor => Cursor | Cursor => NoCursor
  | NoBlink => Blink | Blink => NoBlink
  | ShiftLeft => ShiftRight | ShiftRight => ShiftLeft
  | ShiftIncrement => ShiftDecrement | ShiftDecrement => ShiftIncrement
  end.

End Scripts.

(** ** More of what the hardware sees *)

(** The time spent in [delayMicroseconds]. *)
Fixpoint total_delay (t : list event) : Z :=
  match t with
  | [] => 0
  | DelayMicroseconds us :: t' => us + total_delay t'
  | _ :: t' => total_delay t'
  end.

(** Every rise of the enable pin [en] is held for at least a microsecond
    and then taken back: the next two calls are a delay and a write of
    [LOW] to [en]. *)
Fixpoint pulsed (en : Z) (t : list event) : bool :=
  match t with
  | [] => true
  | DigitalWrite p l :: t' =>
      if (p =? en) && truthy l
      then match t' with
           | DelayMicroseconds us :: DigitalWrite p' l' :: t'' =>
               (1 <=? us) && (p' =? en) && negb (truthy l') && pulsed en t''
           | _ => false
           end
      else pulsed en t'
  | _ :: t' => pulsed en t'
  end.

(** A platform call that stays on the three pins of the object: pin modes
    are [OUTPUT] on one of them, writes go to the enable pin, shifts go out
    most significant bit first on the data and clock pins. *)
Definition on_wiring (s : ShiftRegLCD) (e : event) : bool :=
  match e with
  | PinMode p m =>
      (m =? OUTPUT) &&
      ((p =? _srclock_pin s) || (p =? _srdata_pin s) || (p =? _enable_pin s))
  | DigitalWrite p l =>
      (p =? _enable_pin s) && ((l =? LOW) || (l =? HIGH))
  | ShiftOut d c o _ =>
      (d =? _srdata_pin s) && (c =? _srclock_pin s) && (o =? MSBFIRST)
  | DelayMicroseconds _ => true
  end.

(** A register value is either the all-zero clear or a frame: enable gate
    (bit 7) set, the two unconnected outputs (bits 1 and 0) clear, nothing
    above bit 7. *)
Definition clear_or_frame (v : Z) : bool :=
  (v =? 0) ||
  (Z.testbit v 7 && negb (Z.testbit v 1) && negb (Z.testbit v 0) &&
   (0 <=? v) && (v <? 256)).

(** The time an operation spends waiting: 42 microseconds for each [send],
    2000 more after the two slow commands. *)
Definition op_delay (o : op) : Z :=
  match o with
  | Clear | Home => 2042
  | CreateChar _ _ => 420
  | _ => 42
  end.

(** The cached mask an operation rewrites, if any. *)
Definition op_mask (o : op) : option mask :=
  match o with
  | Switch sw => Some (switch_mask sw)
  | _ => None
  end.

(** The check that the one frame built by [init4bits] carries the high
    nibble of a byte, with RS clear, when the enable gate is bit 7. *)
Definition nibble_ok (v : Z) : bool :=
  let frame := u8 (Z.lor (2 ^ 7) (Z.land (Z.shiftr v 1) 0x78)) in
  (frame_data frame =? Z.shiftr v 4) && negb (frame_rs frame).

(** The time one transmission or wait takes. *)
Definition item_delay (i : item) : Z :=
  match i with
  | Send _ _ => 42
  | Nibble _ => 41
  | Wait us => us
  end.

(** ** The cached masks and what the controller was last told *)

Section Carried.
Context {hdr : Header}.

(** A received byte is a command for mask [m] when it came with RS low and
    the opcode bit of [m] is its highest set bit, which is how the
    controller tells its instructions apart. *)
Definition carries (m : mask) (received : bool * Z) : bool :=
  negb (fst received) &&
  (opcode m <=? snd received) && (snd received <? 2 * opcode m).

(** The last command byte received for mask [m]; [d] when there was none. *)
Definition last_carried (m : mask) (received : list (bool * Z)) (d : Z) : Z :=
  last (map snd (filter (carries m) received)) d.




End Carried.

(** An object to run examples on: data pin 11, clock pin 12, enable pin
    10, two lines. *)
Definition example_object : ShiftRegLCD :=
  mkShiftRegLCD 11 12 10 0 0x08 0x04 0x02 0x08.

(** * Proofs *)

(** ** Bytes *)

Lemma u8_land_255 x : u8 x = Z.land x 255.
Proof. unfold u8. change 255 with (Z.ones 8). now rewrite Z.land_ones. Qed.

Lemma u8_range x : is_u8 (u8 x).
Proof. unfold is_u8, u8. apply Z.mod_pos_bound. lia. Qed.

Lemma u8_small x : is_u8 x -> u8 x = x.
Proof. unfold is_u8, u8. intros H. now apply Z.mod_small. Qed.

Lemma u8_u8 x : u8 (u8 x) = u8 x.
Proof. apply u8_small, u8_range. Qed.

Lemma u8_lor_small a b : is_u8 a -> is_u8 b -> u8 (Z.lor a b) = Z.lor a b.
Proof.
  intros Ha Hb. rewrite u8_land_255, Z.land_lor_distr_l, <- !u8_land_255.
  now rewrite (u8_small a), (u8_small b).
Qed.

(** A decidable property of bytes holds of all of them once it has been
    checked on the 256 values. *)
Lemma all_bytes (P : Z -> bool) :
  forallb P (map Z.of_nat (seq 0 256)) = true ->
  forall v, is_u8 v -> P v = true.
Proof.
  intros Hall v [Hlo Hhi]. rewrite forallb_forall in Hall. apply Hall.
  rewrite <- (Z2Nat.id v Hlo). apply in_map, in_seq. lia.
Qed.

Lemma u8_lor_absorb x c : u8 (Z.lor (u8 (Z.lor x c)) c) = u8 (Z.lor x c).
Proof.
  rewrite !u8_land_255. apply Z.bits_inj'. intros n Hn.
  rewrite !Z.land_spec, !Z.lor_spec, !Z.land_spec, !Z.lor_spec.
  destruct (Z.testbit x n), (Z.testbit c n), (Z.testbit 255 n); reflexivity.
Qed.

Lemma u8_lor_u8_l a b : u8 (Z.lor (u8 a) b) = u8 (Z.lor a b).
Proof.
  rewrite !u8_land_255. apply Z.bits_inj'. intros n Hn.
  rewrite !Z.land_spec, !Z.lor_spec, !Z.land_spec.
  destruct (Z.testbit a n), (Z.testbit b n), (Z.testbit 255 n); reflexivity.
Qed.

Lemma u8_lor_u8_r a b : u8 (Z.lor a (u8 b)) = u8 (Z.lor a b).
Proof. now rewrite Z.lor_comm, u8_lor_u8_l, Z.lor_comm. Qed.

Lemma last_cons {A} (x d : A) (l : list A) : last (x :: l) d = last l x.
Proof.
  revert x d. induction l as [|y l IH]; intros x d; [reflexivity|].
  change (last (x :: y :: l) d) with (last (y :: l) d).
  now rewrite !(IH y).
Qed.

(** ** The monad *)

Lemma bind_eq {A B} (m : M A) (f : A -> M B) s a s1 t1 :
  m s = Some (a, s1, t1) ->
  bind m f s =
  match f a s1 with
  | None => None
  | Some (b, s2, t2) => Some (b, s2, t1 ++ t2)
  end.
Proof. intros H. unfold bind. now rewrite H. Qed.

Lemma bind_inv {A B} (m : M A) (f : A -> M B) s b s2 t :
  bind m f s = Some (b, s2, t) ->
  exists a s1 t1 t2,
    m s = Some (a, s1, t1) /\ f a s1 = Some (b, s2, t2) /\ t = t1 ++ t2.
Proof.
  unfold bind. intros H.
  destruct (m s) as [[[a s1] t1]|]; [|discriminate].
  destruct (f a s1) as [[[b' s2'] t2]|] eqn:E; [|discriminate].
  exists a, s1, t1, t2. inversion H; subst. repeat split. exact E.
Qed.

(** ** The transmission primitives *)

Section FrameProofs.
Context {hdr : Header}.
Hypothesis layout : frame_layout hdr.

Lemma frames_carry_byte value mode :
  is_u8 value ->
  frames_byte (upper_frame value mode) (lower_frame value mode) = value /\
  frame_rs (upper_frame value mode) = truthy mode /\
  frame_rs (lower_frame value mode) = truthy mode.
Proof.
  destruct layout as [Hrs Hen]. intros Hv.
  assert (H : frame_pair_ok (truthy mode) value = true)
    by (destruct (truthy mode);
        (apply all_bytes; [vm_compute; reflexivity | exact Hv])).
  unfold frame_pair_ok in H. cbv zeta in H.
  unfold upper_frame, lower_frame, rs_bit. rewrite Hrs, Hen.
  rewrite !andb_true_iff, Z.eqb_eq in H. destruct H as [[Hb Hu] Hl].
  apply eqb_prop in Hu, Hl. now rewrite Hb, Hu, Hl.
Qed.

(** Both frames have the enable-gate bit, so neither is zero. *)
Lemma frames_are_not_zero value mode :
  negb (upper_frame value mode =? 0) = true /\
  negb (lower_frame value mode =? 0) = true.
Proof.
  destruct layout as [Hrs Hen].
  assert (Hbit : forall x, Z.testbit (u8 x) 7 = true -> negb (u8 x =? 0) = true).
  { intros x Hx. destruct (Z.eqb_spec (u8 x) 0) as [E|]; [|reflexivity].
    rewrite E in Hx. discriminate. }
  unfold upper_frame, lower_frame.
  split; apply Hbit; rewrite u8_land_255, Z.land_spec, !Z.lor_spec, Hen;
    rewrite Z.pow2_bits_true by lia; now rewrite orb_true_r.
Qed.

End FrameProofs.

Section PrimitiveProofs.
Context {hdr : Header}.

Lemma send_eq value mode s :
  send value mode s = Some (tt, s, send_trace value mode s).
Proof.
  unfold send, send_trace, clear_register, bind, get.
  destruct (truthy (_two_wire s)); reflexivity.
Qed.

Lemma init4bits_eq value s :
  init4bits value s = Some (tt, s, init4bits_trace value s).
Proof.
  unfold init4bits, init4bits_trace, clear_register, bind, get.
  destruct (truthy (_two_wire s)); reflexivity.
Qed.

Lemma command_eq value s :
  command value s = Some (tt, s, send_trace value LOW s).
Proof. apply send_eq. Qed.

Lemma write_eq value s :
  write value s = Some (0, s, send_trace value HIGH s).
Proof.
  unfold write, bind. rewrite send_eq. cbn. now rewrite app_nil_r.
Qed.

Lemma frames_send_trace value mode s reg rest :
  frames (_enable_pin s) reg (send_trace value mode s ++ rest) =
  upper_frame value mode :: lower_frame value mode ::
  frames (_enable_pin s) (lower_frame value mode) rest.
Proof.
  unfold send_trace, clear_register, strobe, load.
  destruct (truthy (_two_wire s)); cbn [app frames];
    rewrite !Z.eqb_refl; reflexivity.
Qed.
End PrimitiveProofs.

(** C1: for every byte [value] and every [mode], [send] makes the controller
    latch exactly two frames; bits 6..3 of the first, as high nibble, and
    bits 6..3 of the second, as low nibble, give [value] back, and bit 2 of
    both frames is set exactly when [mode] is not [LOW] (clear for a
    command, set for character data).  These two frames are also the only
    non-zero values shifted into the register. *)
Theorem send_two_frames_carry_value (hdr : Header) (s : ShiftRegLCD)
    (value mode reg : Z) :
  frame_layout hdr ->
  is_u8 value ->
  exists upper lower t,
    send value mode s = Some (tt, s, t) /\
    frames (_enable_pin s) reg t = [upper; lower] /\
    filter (fun v => negb (v =? 0x00)) (shifted t) = [upper; lower] /\
    frames_byte upper lower = value /\
    frame_rs upper = truthy mode /\
    frame_rs lower = truthy mode.
Proof.
  intros Hlayout Hvalue.
  exists (upper_frame value mode), (lower_frame value mode),
    (send_trace value mode s).
  split; [apply send_eq|]. split; [|split].
  - rewrite <- (app_nil_r (send_trace value mode s)).
    now rewrite frames_send_trace.
  - destruct (frames_are_not_zero Hlayout value mode) as [Hu Hl].
    unfold send_trace, clear_register, strobe, load.
    destruct (truthy (_two_wire s)); cbn [app shifted filter];
      rewrite ?Hu, ?Hl; reflexivity.
  - now apply frames_carry_byte.
Qed.

(** C10: [send] and [init4bits] leave the enable line deasserted: each ends
    with a write of [LOW] to the enable pin followed only by the settle
    delay, so the last level either of them writes to that pin is [LOW]. *)
Theorem primitives_leave_enable_low (hdr : Header) (s : ShiftRegLCD)
    (value mode : Z) :
  (exists t before,
     send value mode s = Some (tt, s, t) /\
     t = before ++ [DigitalWrite (_enable_pin s) LOW; DelayMicroseconds 40] /\
     last (pin_writes (_enable_pin s) t) HIGH = LOW) /\
  (exists t before,
     init4bits value s = Some (tt, s, t) /\
     t = before ++ [DigitalWrite (_enable_pin s) LOW; DelayMicroseconds 40] /\
     last (pin_writes (_enable_pin s) t) HIGH = LOW).
Proof.
  split.
  - exists (send_trace value mode s).
    exists (clear_register s ++ [DigitalWrite (_enable_pin s) LOW] ++
            [load s (upper_frame value mode)] ++ strobe s ++
            clear_register s ++ [load s (lower_frame value mode)] ++
            [DigitalWrite (_enable_pin s) HIGH; DelayMicroseconds 1]).
    split; [apply send_eq|].
    unfold send_trace, clear_register, strobe, load.
    destruct (truthy (_two_wire s)); cbn [app pin_writes];
      rewrite !Z.eqb_refl; split; reflexivity.
  - exists (init4bits_trace value s).
    exists (clear_register s ++ [DigitalWrite (_enable_pin s) LOW] ++
            [load s (nibble_frame value)] ++
            [DigitalWrite (_enable_pin s) HIGH; DelayMicroseconds 1]).
    split; [apply init4bits_eq|].
    unfold init4bits_trace, clear_register, strobe, load.
    destruct (truthy (_two_wire s)); cbn [app pin_writes];
      rewrite !Z.eqb_refl; split; reflexivity.
Qed.

(** C6, as the code has it: [write] sends its argument once, as character
    data, and returns 0. *)
Theorem write_sends_once_returns_0 (hdr : Header) (s : ShiftRegLCD)
    (value : Z) :
  exists t,
    send value HIGH s = Some (tt, s, t) /\
    write value s = Some (0, s, t).
Proof.
  exists (send_trace value HIGH s). split; [apply send_eq | apply write_eq].
Qed.

(** ** The switches of the cached masks *)

Section SwitchProofs.
Context {hdr : Header}.

Lemma run_switch_eq sw s :
  let s' := store (switch_mask sw) (toggle sw (cached (switch_mask sw) s)) s in
  run_switch sw s =
  Some (tt, s', send_trace (mask_command (switch_mask sw) s') LOW s').
Proof.
  destruct sw;
    unfold run_switch, noDisplay, display, noCursor, cursor, noBlink, blink,
      shiftLeft, shiftRight, shiftIncrement, shiftDecrement, bind, get, put;
    cbv beta iota; rewrite command_eq; reflexivity.
Qed.
End SwitchProofs.

(** C8: from any driver state, calling [display()] twice in a row sends
    the same display-control command byte both times, and the second call
    leaves the object, in particular the cached display-control mask, as
    the first call left it. *)
Theorem display_twice_same (hdr : Header) (s : ShiftRegLCD) :
  exists s1 t,
    display s = Some (tt, s1, t) /\
    display s1 = Some (tt, s1, t) /\
    _displaycontrol s1 = u8 (Z.lor (_displaycontrol s) LCD_DISPLAYON) /\
    t = send_trace (u8 (Z.lor LCD_DISPLAYCONTROL (_displaycontrol s1))) LOW s1.
Proof.
  pose proof (run_switch_eq Display s) as H1. cbn zeta in H1.
  set (s1 := store (switch_mask Display) _ s) in H1.
  pose proof (run_switch_eq Display s1) as H2. cbn zeta in H2.
  assert (Hs : store (switch_mask Display)
                 (toggle Display (cached (switch_mask Display) s1)) s1 = s1).
  { subst s1. destruct s. cbn. unfold set_displaycontrol; cbn.
    unfold toggle; cbn. now rewrite u8_lor_absorb. }
  rewrite Hs in H2.
  exists s1, (send_trace (mask_command DisplayControl s1) LOW s1).
  repeat split; assumption || reflexivity.
Qed.

Section MaskProofs.
Context {hdr : Header}.
Hypothesis layout : frame_layout hdr.

Lemma store_wiring m v s : wiring (store m v s) = wiring s.
Proof. now destruct m. Qed.

Lemma cached_store m v s : cached m (store m v s) = v.
Proof. now destruct m. Qed.

Lemma cached_store_other m m' v s :
  mask_eqb m' m = false -> cached m (store m' v s) = cached m s.
Proof. now destruct m, m'. Qed.

Lemma mask_eqb_true m m' : mask_eqb m' m = true -> m' = m.
Proof. now destruct m, m'. Qed.



End MaskProofs.

(** ** Custom glyphs *)

Section CreateCharProofs.
Context {hdr : Header}.

Lemma subscript_app_length (pre : list Z) x (post : list Z) s :
  subscript (pre ++ x :: post) (Z.of_nat (length pre)) s = Some (x, s, []).
Proof.
  unfold subscript.
  destruct (Z.ltb_spec (Z.of_nat (length pre)) 0) as [H|_]; [lia|].
  rewrite Nat2Z.id, nth_error_app2, Nat.sub_diag by lia. reflexivity.
Qed.

(** The loop of [createChar] over the rows that are still to be written. *)
Lemma glyph_loop (pre rows : list Z) s :
  for_loop (length rows) (Z.of_nat (length pre))
    (fun i => row <- subscript (pre ++ rows) i ;; write row ;; ret tt) s =
  Some (tt, s, concat (map (fun row => send_trace row HIGH s) rows)).
Proof.
  revert pre. induction rows as [|row rows IH]; intros pre; [reflexivity|].
  cbn [length for_loop map concat].
  erewrite bind_eq.
  2:{ erewrite bind_eq by apply subscript_app_length.
      erewrite bind_eq by apply write_eq. cbn. reflexivity. }
  replace (Z.of_nat (length pre) + 1) with (Z.of_nat (length (pre ++ [row])))
    by (rewrite length_app; cbn; lia).
  replace (pre ++ row :: rows) with ((pre ++ [row]) ++ rows)
    by (now rewrite <- app_assoc).
  rewrite IH. now rewrite app_nil_r.
Qed.

Lemma createChar_eq location glyph s :
  length glyph = 8%nat ->
  createChar location glyph s =
  Some (tt, s,
        send_trace (u8 (Z.lor LCD_SETCGRAMADDR
                          (Z.shiftl (u8 (Z.land location 0x7)) 3))) LOW s ++
        concat (map (fun row => send_trace row HIGH s) glyph) ++
        send_trace (u8 LCD_SETDDRAMADDR) LOW s).
Proof.
  intros Hlen. unfold createChar.
  erewrite bind_eq by apply command_eq.
  erewrite bind_eq.
  2:{ rewrite <- Hlen. apply (glyph_loop [] glyph). }
  now rewrite command_eq.
Qed.
End CreateCharProofs.

(** C9: for every glyph of eight rows, [createChar(9, glyph)] does what
    [createChar(1, glyph)] does: the location is masked to its low three
    bits, so both send the set-CGRAM-address command for [1 << 3], the
    eight rows as character data and the set-DDRAM-address command for
    address 0. *)
Theorem createChar_9_is_createChar_1 (hdr : Header) (s : ShiftRegLCD)
    (glyph : list Z) :
  length glyph = 8%nat ->
  createChar 9 glyph s = createChar 1 glyph s /\
  createChar 9 glyph s =
  Some (tt, s,
        send_trace (u8 (Z.lor LCD_SETCGRAMADDR (Z.shiftl 1 3))) LOW s ++
        concat (map (fun row => send_trace row HIGH s) glyph) ++
        send_trace (u8 LCD_SETDDRAMADDR) LOW s).
Proof.
  intros Hlen. rewrite !createChar_eq by assumption. split; reflexivity.
Qed.

(** ** Initialisation *)

Section InitProofs.
Context {hdr : Header}.

Lemma init_eq srdata srclock enable lines font s0 :
  let s := constructed srdata srclock enable lines font in
  init srdata srclock enable lines font s0 = Some (tt, s, init_trace s).
Proof.
  cbv zeta.
  unfold init, constructed, display, clear, home, bind, get, put, pinMode,
    delayMicroseconds, call.
  destruct (enable =? TWO_WIRE), (lines >? 1), (font =? 0);
    cbn [negb]; cbv beta iota;
    repeat (rewrite ?init4bits_eq, ?command_eq; cbv beta iota);
    reflexivity.
Qed.
End InitProofs.

(** C4: [init] with [lines = 2] and [font = 0] leaves [_displayfunction]
    equal to [LCD_4BITMODE | LCD_2LINE | LCD_5x8DOTS], and the function-set
    command it sends after the four bootstrap nibbles, the last one of the
    initialisation, is [LCD_FUNCTIONSET] or-ed with exactly that mask. *)
Theorem init_2_lines_function_set (hdr : Header) (srdata srclock enable : Z)
    (s0 : ShiftRegLCD) :
  Forall is_u8 [LCD_FUNCTIONSET; LCD_4BITMODE; LCD_2LINE; LCD_5x8DOTS] ->
  let mask := Z.lor (Z.lor LCD_4BITMODE LCD_2LINE) LCD_5x8DOTS in
  exists s,
    init srdata srclock enable 2 0 s0 =
    Some (tt, s,
          bootstrap_trace s ++
          send_trace (Z.lor LCD_FUNCTIONSET mask) LOW s ++
          configure_trace s) /\
    _displayfunction s = mask.
Proof.
  intros Hbytes mask.
  rewrite Forall_forall in Hbytes.
  assert (Hfs : is_u8 LCD_FUNCTIONSET) by (apply Hbytes; simpl; auto).
  assert (H4 : is_u8 LCD_4BITMODE) by (apply Hbytes; simpl; auto).
  assert (H2 : is_u8 LCD_2LINE) by (apply Hbytes; simpl; auto).
  assert (H8 : is_u8 LCD_5x8DOTS) by (apply Hbytes; simpl; auto 6).
  assert (H42 : is_u8 (Z.lor LCD_4BITMODE LCD_2LINE))
    by (rewrite <- u8_lor_small by assumption; apply u8_range).
  assert (Hm : is_u8 mask)
    by (unfold mask; rewrite <- u8_lor_small by assumption; apply u8_range).
  assert (Hmask : _displayfunction (constructed srdata srclock enable 2 0) = mask).
  { unfold constructed; cbn [_displayfunction].
    change (2 >? 1) with true. change (0 =? 0) with true. cbv iota.
    now rewrite (u8_small LCD_2LINE), (u8_small (Z.lor _ LCD_2LINE)), u8_small. }
  exists (constructed srdata srclock enable 2 0).
  split; [|exact Hmask].
  rewrite init_eq. unfold init_trace. rewrite Hmask.
  rewrite (u8_small (Z.lor LCD_FUNCTIONSET mask)); [reflexivity|].
  rewrite <- u8_lor_small by assumption. apply u8_range.
Qed.

(** ** Two-wire mode *)

Lemma shifted_app t1 t2 : shifted (t1 ++ t2) = shifted t1 ++ shifted t2.
Proof.
  induction t1 as [|[| | |] t1 IH]; cbn [app shifted]; now rewrite ?IH.
Qed.

Lemma zero_cleared_app l1 l2 :
  zero_cleared l1 -> zero_cleared l2 -> zero_cleared (l1 ++ l2).
Proof.
  induction 1 as [|frame rest _ IH]; intros H2; [exact H2|].
  cbn [app]. constructor. now apply IH.
Qed.

Create HintDb tidy.

Section TwoWireProofs.
Context {hdr : Header}.

Lemma shifted_send_trace value mode s :
  truthy (_two_wire s) = true ->
  shifted (send_trace value mode s) =
  [0x00; upper_frame value mode; 0x00; lower_frame value mode].
Proof.
  intros H. unfold send_trace, clear_register. now rewrite H.
Qed.

Lemma shifted_init4bits_trace value s :
  truthy (_two_wire s) = true ->
  shifted (init4bits_trace value s) = [0x00; nibble_frame value].
Proof.
  intros H. unfold init4bits_trace, clear_register. now rewrite H.
Qed.

Lemma tidy_ret {A} (a : A) : tidy (ret a).
Proof.
  intros s a' s' t H. inversion H; subst. split; [reflexivity|constructor].
Qed.

Lemma tidy_bind {A B} (m : M A) (f : A -> M B) :
  tidy m -> (forall a, tidy (f a)) -> tidy (bind m f).
Proof.
  intros Hm Hf s b s2 t H. apply bind_inv in H.
  destruct H as (a & s1 & t1 & t2 & E1 & E2 & ->).
  destruct (Hm _ _ _ _ E1) as [Hw1 Hc1], (Hf _ _ _ _ _ E2) as [Hw2 Hc2].
  split; [congruence|]. intros Htw.
  rewrite shifted_app. apply zero_cleared_app; [now apply Hc1|].
  apply Hc2. unfold wiring in Hw1. congruence.
Qed.

Lemma tidy_undefined {A} : tidy (@undefined A).
Proof. intros s a s' t H. discriminate. Qed.

Lemma tidy_get {A} (field : ShiftRegLCD -> A) : tidy (get field).
Proof.
  intros s a s' t H. inversion H; subst. split; [reflexivity|constructor].
Qed.

Lemma tidy_put_displaycontrol v : tidy (put (set_displaycontrol v)).
Proof.
  intros s a s' t H. inversion H; subst. split; [reflexivity|constructor].
Qed.

Lemma tidy_put_displaymode v : tidy (put (set_displaymode v)).
Proof.
  intros s a s' t H. inversion H; subst. split; [reflexivity|constructor].
Qed.

Lemma tidy_delayMicroseconds us : tidy (delayMicroseconds us).
Proof.
  intros s a s' t H. inversion H; subst. split; [reflexivity|constructor].
Qed.

Lemma tidy_send value mode : tidy (send value mode).
Proof.
  intros s a s' t H. rewrite send_eq in H. inversion H; subst.
  split; [reflexivity|]. intros Htw. rewrite shifted_send_trace by assumption.
  repeat constructor.
Qed.

Lemma tidy_subscript a i : tidy (subscript a i).
Proof.
  unfold subscript. destruct (i <? 0); [apply tidy_undefined|].
  destruct (nth_error a (Z.to_nat i)); [apply tidy_ret|apply tidy_undefined].
Qed.

Lemma tidy_for_loop count i body :
  (forall j, tidy (body j)) -> tidy (for_loop count i body).
Proof.
  intros Hbody. revert i.
  induction count as [|count IH]; intros i; cbn [for_loop];
    [apply tidy_ret | apply tidy_bind; auto].
Qed.

#[local] Hint Resolve tidy_ret tidy_undefined tidy_get tidy_put_displaycontrol
  tidy_put_displaymode tidy_delayMicroseconds tidy_send tidy_subscript : tidy.

Ltac tidy :=
  repeat first
    [ solve [auto with tidy]
    | apply tidy_for_loop; intros ?
    | apply tidy_bind; [|intros ?] ].

Lemma tidy_exec o : tidy (exec o).
Proof.
  destruct o as [| | |sw| | | | |]; [| | |destruct sw| | | | |];
    unfold exec, run_switch, clear, home, setCursor, noDisplay, display,
      noCursor, cursor, noBlink, blink, shiftLeft, shiftRight, shiftIncrement,
      shiftDecrement, scrollDisplayLeft, scrollDisplayRight, createChar,
      write, command; tidy.
Qed.

Lemma tidy_session os : tidy (session os).
Proof.
  induction os as [|o os IH]; cbn [session];
    [apply tidy_ret | apply tidy_bind; [apply tidy_exec | intros _; exact IH]].
Qed.

Lemma zero_cleared_init_trace s :
  truthy (_two_wire s) = true -> zero_cleared (shifted (init_trace s)).
Proof.
  intros H. unfold init_trace, bootstrap_trace, configure_trace.
  rewrite !shifted_app, !shifted_send_trace, !shifted_init4bits_trace
    by assumption.
  cbn [shifted app]. repeat constructor.
Qed.

End TwoWireProofs.

(** C7: when the driver is constructed with the enable pin equal to
    [TWO_WIRE], then whatever public operations follow, the values shifted
    into the register come in pairs [0x00, frame]; in the state reached,
    [send] shifts [0x00, upper frame, 0x00, lower frame] and [init4bits]
    shifts [0x00, frame]. *)
Theorem two_wire_clears_before_each_frame (hdr : Header)
    (srdata srclock lines font : Z) (os : list op) (s0 s : ShiftRegLCD)
    (t : list event) :
  (init srdata srclock TWO_WIRE lines font ;; session os) s0 = Some (tt, s, t) ->
  zero_cleared (shifted t) /\
  (forall value mode, exists t',
     send value mode s = Some (tt, s, t') /\
     shifted t' = [0x00; upper_frame value mode; 0x00; lower_frame value mode]) /\
  (forall value, exists t',
     init4bits value s = Some (tt, s, t') /\
     shifted t' = [0x00; nibble_frame value]).
Proof.
  intros H. apply bind_inv in H.
  destruct H as ([] & s1 & t1 & t2 & Hinit & Hsession & ->).
  assert (Hs1 : s1 = constructed srdata srclock TWO_WIRE lines font /\
                t1 = init_trace s1).
  { rewrite init_eq in Hinit. now inversion Hinit. }
  destruct Hs1 as [Hs1 ->].
  assert (H1 : truthy (_two_wire s1) = true).
  { rewrite Hs1. unfold constructed; cbn [_two_wire]. now rewrite Z.eqb_refl. }
  destruct (tidy_session os _ _ _ _ Hsession) as [Hw Hc].
  assert (H2 : truthy (_two_wire s) = true) by (unfold wiring in Hw; congruence).
  split; [|split].
  - rewrite shifted_app. apply zero_cleared_app; [|now apply Hc].
    now apply zero_cleared_init_trace.
  - intros value mode. exists (send_trace value mode s).
    split; [apply send_eq | now apply shifted_send_trace].
  - intros value. exists (init4bits_trace value s).
    split; [apply init4bits_eq | now apply shifted_init4bits_trace].
Qed.

(** ** Cursor addressing *)

Section CursorProofs.
Context {hdr : Header}.

Lemma subscript_row_offsets row s :
  subscript row_offsets row s <> None <-> 0 <= row < 4.
Proof.
  unfold subscript. destruct (Z.ltb_spec row 0) as [Hneg|Hpos].
  - split; [intros H; now elim H | lia].
  - destruct (Z.ltb_spec row 4) as [Hlt|Hge].
    + assert (Hrow : row = 0 \/ row = 1 \/ row = 2 \/ row = 3) by lia.
      split; [lia|]. intros _.
      destruct Hrow as [-> | [-> | [-> | ->]]]; discriminate.
    + split; [|lia]. intros H. exfalso. apply H.
      rewrite (proj2 (nth_error_None row_offsets (Z.to_nat row)));
        [reflexivity | cbn; lia].
Qed.

Lemma setCursor_defined col row s :
  setCursor col row s <> None <-> 0 <= clamp_row (_numlines s) row < 4.
Proof.
  rewrite <- (subscript_row_offsets (clamp_row (_numlines s) row) s).
  unfold setCursor, bind, get.
  destruct (subscript row_offsets (clamp_row (_numlines s) row) s)
    as [[[offset s1] t1]|]; [|tauto].
  rewrite command_eq. split; discriminate.
Qed.

(** The subscript stays inside [row_offsets] for every row exactly when
    [_numlines] holds 1, 2 or 3. *)
Lemma clamp_row_in_table numlines :
  is_u8 numlines ->
  (forall row, is_u8 row -> 0 <= clamp_row numlines row < 4) <->
  1 <= numlines <= 3.
Proof.
  unfold is_u8, clamp_row, u8. intros Hn. split.
  - intros H.
    assert (H255 := H 255 ltac:(lia)). assert (H3 := H numlines Hn).
    destruct (Z.gtb_spec numlines numlines); [lia|].
    destruct (Z.gtb_spec 255 numlines) as [Hgt|Hle].
    + destruct (Z.eq_dec numlines 0) as [->|Hnz]; [cbn in H255; lia|lia].
    + lia.
  - intros Hn3 row Hrow. destruct (Z.gtb_spec row numlines).
    + rewrite Z.mod_small; lia.
    + lia.
Qed.

(** Whatever value the header gives the line flags, row 2 of a two-line
    display is never clamped to row 1. *)
Lemma row_2_not_clamped_to_1 numlines :
  is_u8 numlines -> clamp_row numlines 2 <> 1.
Proof.
  unfold is_u8, clamp_row, u8. intros Hn.
  destruct (Z.gtb_spec 2 numlines) as [Hgt|Hle]; [|lia].
  assert (Hcases : numlines = 0 \/ numlines = 1) by lia.
  destruct Hcases as [-> | ->]; discriminate.
Qed.

End CursorProofs.

(** * On the HD44780 header

    The statements below are about the driver compiled against
    [ShiftRegLCD_h]. *)

Section OnTheHD44780.
#[local] Existing Instance ShiftRegLCD_h.

(** ** Cursor addressing on one and two lines *)

(** C2, as the code has it: on a two-line display [_numlines] holds the
    flag [LCD_2LINE] = 0x08, so row 5 passes the test [row > _numlines]
    unclamped and [setCursor(0, 5)] subscripts [row_offsets] past its end,
    whereas [setCursor(0, 1)] sends the address 0x40. *)
Theorem setCursor_row_5_of_two_lines (srdata srclock enable : Z)
    (s0 : ShiftRegLCD) :
  exists s t,
    init srdata srclock enable 2 0 s0 = Some (tt, s, t) /\
    _numlines s = 0x08 /\
    clamp_row (_numlines s) 5 = 5 /\
    setCursor 0 5 s = None /\
    setCursor 0 1 s =
    Some (tt, s, send_trace (Z.lor LCD_SETDDRAMADDR 0x40) LOW s).
Proof.
  exists (constructed srdata srclock enable 2 0),
    (init_trace (constructed srdata srclock enable 2 0)).
  split; [apply init_eq|]. repeat split.
  unfold setCursor, bind, get.
  change (subscript row_offsets (clamp_row _ 1)) with (@ret Z 0x40).
  cbv beta iota. unfold ret. rewrite command_eq. reflexivity.
Qed.

(** C3, as the code has it: on a one-line display [_numlines] holds the
    flag [LCD_1LINE] = 0x00, so row 1 is replaced by [0 - 1], which is 255
    as a [uint8_t]; on a two-line display row 4 is not clamped.  Both
    subscripts fall outside the four entries of [row_offsets]. *)
Theorem setCursor_subscript_outside_row_offsets (srdata srclock enable col : Z)
    (s0 : ShiftRegLCD) :
  (exists s t,
     init srdata srclock enable 1 0 s0 = Some (tt, s, t) /\
     clamp_row (_numlines s) 1 = 255 /\
     nth_error row_offsets 255 = None /\
     setCursor col 1 s = None) /\
  (exists s t,
     init srdata srclock enable 2 0 s0 = Some (tt, s, t) /\
     clamp_row (_numlines s) 4 = 4 /\
     nth_error row_offsets 4 = None /\
     setCursor col 4 s = None).
Proof.
  split.
  - exists (constructed srdata srclock enable 1 0),
      (init_trace (constructed srdata srclock enable 1 0)).
    split; [apply init_eq|]. repeat split.
  - exists (constructed srdata srclock enable 2 0),
      (init_trace (constructed srdata srclock enable 2 0)).
    split; [apply init_eq|]. repeat split.
Qed.

(** ** Instances of the general theorems *)

Lemma send_two_frames_carry_value_witness :
  frame_layout ShiftRegLCD_h /\ is_u8 0x41 /\
  exists upper lower t,
    send 0x41 HIGH example_object = Some (tt, example_object, t) /\
    frames (_enable_pin example_object) 0 t = [upper; lower] /\
    filter (fun v => negb (v =? 0x00)) (shifted t) = [upper; lower] /\
    frames_byte upper lower = 0x41 /\
    frame_rs upper = truthy HIGH /\
    frame_rs lower = truthy HIGH.
Proof.
  assert (Hl : frame_layout ShiftRegLCD_h) by (split; reflexivity).
  assert (Hv : is_u8 0x41) by (unfold is_u8; lia).
  split; [exact Hl|]. split; [exact Hv|].
  exact (send_two_frames_carry_value ShiftRegLCD_h example_object 0x41 HIGH 0
           Hl Hv).
Defined.

Lemma init_2_lines_function_set_witness :
  Forall is_u8 [LCD_FUNCTIONSET; LCD_4BITMODE; LCD_2LINE; LCD_5x8DOTS] /\
  exists s,
    init 11 12 10 2 0 example_object =
    Some (tt, s,
          bootstrap_trace s ++
          send_trace (Z.lor LCD_FUNCTIONSET
                        (Z.lor (Z.lor LCD_4BITMODE LCD_2LINE) LCD_5x8DOTS))
            LOW s ++
          configure_trace s) /\
    _displayfunction s = Z.lor (Z.lor LCD_4BITMODE LCD_2LINE) LCD_5x8DOTS.
Proof.
  assert (Hb : Forall is_u8
                 [LCD_FUNCTIONSET; LCD_4BITMODE; LCD_2LINE; LCD_5x8DOTS])
    by (repeat constructor; unfold is_u8; cbn; lia).
  split; [exact Hb|].
  exact (init_2_lines_function_set ShiftRegLCD_h 11 12 10 example_object Hb).
Defined.

Lemma two_wire_clears_before_each_frame_witness :
  exists s t,
    (init 11 12 TWO_WIRE 2 0 ;; session [Clear; Write 0x41])
      example_object = Some (tt, s, t) /\
    zero_cleared (shifted t) /\
    (forall value mode, exists t',
       send value mode s = Some (tt, s, t') /\
       shifted t' = [0x00; upper_frame value mode; 0x00; lower_frame value mode]) /\
    (forall value, exists t',
       init4bits value s = Some (tt, s, t') /\
       shifted t' = [0x00; nibble_frame value]).
Proof.
  eexists. eexists.
  assert (H : (init 11 12 TWO_WIRE 2 0 ;; session [Clear; Write 0x41])
      example_object = Some (tt, ?[s], ?[t])) by (vm_compute; reflexivity).
  split; [exact H|].
  exact (two_wire_clears_before_each_frame ShiftRegLCD_h 11 12 2 0
           [Clear; Write 0x41] example_object _ _ H).
Defined.

Lemma createChar_9_is_createChar_1_witness :
  length [0x00; 0x0A; 0x1F; 0x1F; 0x0E; 0x04; 0x00; 0x00] = 8%nat /\
  createChar 9 [0x00; 0x0A; 0x1F; 0x1F; 0x0E; 0x04; 0x00; 0x00] example_object =
  createChar 1 [0x00; 0x0A; 0x1F; 0x1F; 0x0E; 0x04; 0x00; 0x00] example_object.
Proof.
  split; [reflexivity|].
  exact (proj1 (createChar_9_is_createChar_1 ShiftRegLCD_h example_object
                  [0x00; 0x0A; 0x1F; 0x1F; 0x0E; 0x04; 0x00; 0x00] eq_refl)).
Defined.

End OnTheHD44780.

(** * Beyond the single calls: scripts, sessions and the algebra of the
      operations *)

(** * The operations as scripts *)

Section ScriptProofs.
Context {hdr : Header}.

Lemma send_trace_wiring value mode s s' :
  wiring s' = wiring s -> send_trace value mode s' = send_trace value mode s.
Proof.
  unfold wiring. intros H. injection H as Hd Hc He Ht.
  unfold send_trace, clear_register, load, strobe. now rewrite Hd, Hc, He, Ht.
Qed.

Lemma init4bits_trace_wiring value s s' :
  wiring s' = wiring s -> init4bits_trace value s' = init4bits_trace value s.
Proof.
  unfold wiring. intros H. injection H as Hd Hc He Ht.
  unfold init4bits_trace, clear_register, load, strobe.
  now rewrite Hd, Hc, He, Ht.
Qed.

Lemma play_wiring items s s' :
  wiring s' = wiring s -> play s' items = play s items.
Proof.
  intros H. unfold play. induction items as [|[v m|v|us] items IH];
    cbn [flat_map play_item]; rewrite ?IH;
    now rewrite ?(send_trace_wiring _ _ _ _ H), ?(init4bits_trace_wiring _ _ _ H).
Qed.

Lemma play_app s items1 items2 :
  play s (items1 ++ items2) = play s items1 ++ play s items2.
Proof. apply flat_map_app. Qed.

Lemma subscript_eq a i s :
  subscript a i s =
  if (0 <=? i) && (i <? Z.of_nat (length a))
  then Some (nth (Z.to_nat i) a 0, s, [])
  else None.
Proof.
  unfold subscript.
  destruct (Z.ltb_spec i 0) as [Hneg|Hpos].
  - destruct (Z.leb_spec 0 i); [lia|reflexivity].
  - destruct (Z.leb_spec 0 i); [|lia]. cbn [andb].
    destruct (Z.ltb_spec i (Z.of_nat (length a))) as [Hlt|Hge].
    + destruct (nth_error a (Z.to_nat i)) as [x|] eqn:E.
      * now rewrite (nth_error_nth _ _ 0 E).
      * apply nth_error_None in E. lia.
    + now rewrite (proj2 (nth_error_None a (Z.to_nat i))) by lia.
Qed.

Lemma skipn_nth_error {A} (l : list A) k x :
  nth_error l k = Some x -> skipn k l = x :: skipn (S k) l.
Proof.
  revert k. induction l as [|y l IH]; intros [|k] H; try discriminate.
  - now inversion H.
  - cbn [nth_error] in H. cbn [skipn]. now apply IH.
Qed.

(** The loop of [createChar] from row [k] on: it fails when the glyph ends
    before the loop does. *)
Lemma glyph_loop_from glyph n : forall k s,
  (k <= length glyph)%nat ->
  for_loop n (Z.of_nat k)
    (fun i => row <- subscript glyph i ;; write row ;; ret tt) s =
  if (k + n <=? length glyph)%nat
  then Some (tt, s,
             play s (map (fun row => Send row HIGH) (firstn n (skipn k glyph))))
  else None.
Proof.
  induction n as [|n IH]; intros k s Hk.
  - cbn [for_loop firstn map]. rewrite Nat.add_0_r.
    now rewrite (proj2 (Nat.leb_le _ _) Hk).
  - cbn [for_loop]. unfold bind at 1. unfold bind at 1.
    rewrite subscript_eq.
    destruct (Z.leb_spec 0 (Z.of_nat k)); [|lia]. cbn [andb].
    destruct (Z.ltb_spec (Z.of_nat k) (Z.of_nat (length glyph))) as [Hlt|Hge].
    + rewrite bind_eq with (1 := write_eq _ _). cbv beta iota.
      unfold ret at 1. cbv beta iota.
      replace (Z.of_nat k + 1) with (Z.of_nat (S k)) by lia.
      rewrite IH by lia.
      replace (S k + n)%nat with (k + S n)%nat by lia.
      destruct (Nat.leb_spec (k + S n) (length glyph)); [|reflexivity].
      assert (E : nth_error glyph k = Some (nth (Z.to_nat (Z.of_nat k)) glyph 0)).
      { rewrite Nat2Z.id. apply nth_error_nth'. lia. }
      rewrite (skipn_nth_error _ _ _ E). cbn [firstn map].
      unfold play. cbn [flat_map play_item]. now rewrite !app_nil_r.
    + destruct (Nat.leb_spec (k + S n) (length glyph)); [lia|reflexivity].
Qed.

Lemma exec_script o s :
  exec o s =
  match script o s with
  | Some (s', items) => Some (tt, s', play s items)
  | None => None
  end.
Proof.
  destruct o as [| |col row|sw| | |location charmap|value|value];
    cbn [exec script].
  - unfold clear. rewrite bind_eq with (1 := command_eq _ _).
    unfold play. cbn [flat_map play_item]. now rewrite app_nil_r.
  - unfold home. rewrite bind_eq with (1 := command_eq _ _).
    unfold play. cbn [flat_map play_item]. now rewrite app_nil_r.
  - unfold setCursor, bind, get. rewrite subscript_eq.
    change (Z.of_nat (length row_offsets)) with 4.
    destruct ((0 <=? clamp_row (_numlines s) row) &&
              (clamp_row (_numlines s) row <? 4)); [|reflexivity].
    rewrite command_eq. unfold play. cbn [flat_map play_item app].
    now rewrite app_nil_r.
  - rewrite run_switch_eq. cbv zeta. unfold play. cbn [flat_map play_item].
    rewrite app_nil_r. apply f_equal. apply f_equal.
    apply send_trace_wiring, store_wiring.
  - unfold scrollDisplayLeft. rewrite command_eq.
    unfold play. cbn [flat_map play_item]. now rewrite app_nil_r.
  - unfold scrollDisplayRight. rewrite command_eq.
    unfold play. cbn [flat_map play_item]. now rewrite app_nil_r.
  - unfold createChar. rewrite bind_eq with (1 := command_eq _ _).
    unfold bind at 1. change 0 with (Z.of_nat 0) at 1.
    rewrite glyph_loop_from by apply Nat.le_0_l.
    change (0 + 8)%nat with 8%nat. cbn [skipn].
    destruct (8 <=? length charmap)%nat; [|reflexivity].
    rewrite command_eq.
    change (Send ?a ?b :: ?l ++ ?r) with ([Send a b] ++ l ++ r).
    rewrite !play_app. unfold play. cbn [flat_map play_item].
    now rewrite !app_nil_r.
  - rewrite command_eq. unfold play. cbn [flat_map play_item].
    now rewrite app_nil_r.
  - rewrite bind_eq with (1 := write_eq _ _). cbv beta iota. unfold ret.
    unfold play. cbn [flat_map play_item]. now rewrite !app_nil_r.
Qed.

Lemma script_wiring o s s' items :
  script o s = Some (s', items) -> wiring s' = wiring s.
Proof.
  destruct o as [| |col row|sw| | |location charmap|value|value];
    cbn [script]; intros H;
    try (destruct (_ && _)); try (destruct (_ <=? _)%nat);
    inversion H; subst; try reflexivity.
  apply store_wiring.
Qed.

Lemma session_is_script os : forall s,
  session os s =
  match session_script os s with
  | Some (s', items) => Some (tt, s', play s items)
  | None => None
  end.
Proof.
  induction os as [|o os IH]; intros s; [reflexivity|].
  cbn [session session_script]. unfold bind. rewrite exec_script.
  destruct (script o s) as [[s1 items1]|] eqn:E; [|reflexivity].
  rewrite IH. destruct (session_script os s1) as [[s2 items2]|]; [|reflexivity].
  rewrite play_app. now rewrite (play_wiring items2 s s1 (script_wiring _ _ _ _ E)).
Qed.

Lemma session_script_wiring os : forall s s' items,
  session_script os s = Some (s', items) -> wiring s' = wiring s.
Proof.
  induction os as [|o os IH]; intros s s' items H; cbn [session_script] in H.
  - now inversion H.
  - destruct (script o s) as [[s1 items1]|] eqn:E; [|discriminate].
    destruct (session_script os s1) as [[s2 items2]|] eqn:E2; [|discriminate].
    inversion H; subst. rewrite (IH _ _ _ E2). eapply script_wiring, E.
Qed.

Lemma init_is_script srdata srclock enable lines font s0 :
  let s := constructed srdata srclock enable lines font in
  init srdata srclock enable lines font s0 =
  Some (tt, s, pin_modes s ++ play s (init_script s)).
Proof.
  cbv zeta. rewrite init_eq. cbv zeta. apply f_equal. apply f_equal.
  unfold init_trace, bootstrap_trace, configure_trace, play, init_script, pin_modes.
  cbn [flat_map play_item app].
  repeat (rewrite <- ?app_assoc, <- ?app_comm_cons, ?app_nil_r); reflexivity.
Qed.

End ScriptProofs.

(** * What every trace looks like *)

Lemma total_delay_app t1 t2 :
  total_delay (t1 ++ t2) = total_delay t1 + total_delay t2.
Proof.
  induction t1 as [|[| | |] t1 IH]; cbn [app total_delay]; rewrite ?IH; lia.
Qed.

Lemma pin_writes_app pin t1 t2 :
  pin_writes pin (t1 ++ t2) = pin_writes pin t1 ++ pin_writes pin t2.
Proof.
  induction t1 as [|[p m|p l|d c o v|us] t1 IH]; cbn [app pin_writes];
    rewrite ?IH; try reflexivity.
  now destruct (p =? pin).
Qed.

Section TraceProofs.
Context {hdr : Header}.

Lemma frames_init4bits_trace value s reg rest :
  frames (_enable_pin s) reg (init4bits_trace value s ++ rest) =
  nibble_frame value :: frames (_enable_pin s) (nibble_frame value) rest.
Proof.
  unfold init4bits_trace, clear_register, strobe, load.
  destruct (truthy (_two_wire s)); cbn [app frames];
    rewrite !Z.eqb_refl; reflexivity.
Qed.

Lemma pulsed_send_trace value mode s rest :
  pulsed (_enable_pin s) (send_trace value mode s ++ rest) =
  pulsed (_enable_pin s) rest.
Proof.
  unfold send_trace, clear_register, strobe, load.
  destruct (truthy (_two_wire s)); cbn [app pulsed];
    rewrite !Z.eqb_refl; reflexivity.
Qed.

Lemma pulsed_init4bits_trace value s rest :
  pulsed (_enable_pin s) (init4bits_trace value s ++ rest) =
  pulsed (_enable_pin s) rest.
Proof.
  unfold init4bits_trace, clear_register, strobe, load.
  destruct (truthy (_two_wire s)); cbn [app pulsed];
    rewrite !Z.eqb_refl; reflexivity.
Qed.

Lemma pulsed_play s items rest :
  pulsed (_enable_pin s) (play s items ++ rest) = pulsed (_enable_pin s) rest.
Proof.
  unfold play. induction items as [|[v m|v|us] items IH];
    cbn [flat_map play_item]; rewrite <- ?app_assoc;
    rewrite ?pulsed_send_trace, ?pulsed_init4bits_trace; try exact IH.
  reflexivity.
Qed.

Lemma on_wiring_send_trace value mode s :
  forallb (on_wiring s) (send_trace value mode s) = true.
Proof.
  unfold send_trace, clear_register, strobe, load.
  destruct (truthy (_two_wire s)); cbn [app forallb on_wiring];
    rewrite !Z.eqb_refl; reflexivity.
Qed.

Lemma on_wiring_init4bits_trace value s :
  forallb (on_wiring s) (init4bits_trace value s) = true.
Proof.
  unfold init4bits_trace, clear_register, strobe, load.
  destruct (truthy (_two_wire s)); cbn [app forallb on_wiring];
    rewrite !Z.eqb_refl; reflexivity.
Qed.

Lemma on_wiring_play s items : forallb (on_wiring s) (play s items) = true.
Proof.
  unfold play. induction items as [|[v m|v|us] items IH];
    cbn [flat_map play_item]; rewrite ?forallb_app, ?IH,
      ?on_wiring_send_trace, ?on_wiring_init4bits_trace; reflexivity.
Qed.

Lemma total_delay_send_trace value mode s :
  total_delay (send_trace value mode s) = 42.
Proof.
  unfold send_trace, clear_register, strobe, load.
  destruct (truthy (_two_wire s)); reflexivity.
Qed.

Lemma total_delay_init4bits_trace value s :
  total_delay (init4bits_trace value s) = 41.
Proof.
  unfold init4bits_trace, clear_register, strobe, load.
  destruct (truthy (_two_wire s)); reflexivity.
Qed.

Lemma pin_writes_send_trace value mode s :
  pin_writes (_enable_pin s) (send_trace value mode s) =
  [LOW; HIGH; LOW; HIGH; LOW].
Proof.
  unfold send_trace, clear_register, strobe, load.
  destruct (truthy (_two_wire s)); cbn [app pin_writes];
    rewrite !Z.eqb_refl; reflexivity.
Qed.

Lemma pin_writes_init4bits_trace value s :
  pin_writes (_enable_pin s) (init4bits_trace value s) = [LOW; HIGH; LOW].
Proof.
  unfold init4bits_trace, clear_register, strobe, load.
  destruct (truthy (_two_wire s)); cbn [app pin_writes];
    rewrite !Z.eqb_refl; reflexivity.
Qed.

Lemma last_app_default {A} (l1 l2 : list A) d :
  last (l1 ++ l2) d = last l2 (last l1 d).
Proof.
  revert d. induction l1 as [|x l1 IH]; intros d; [reflexivity|].
  cbn [app]. now rewrite !last_cons, IH.
Qed.

(** After a script the enable pin is low, unless the script had no
    transmission and left the pin as it was. *)
Lemma last_pin_writes_play s items d :
  last (pin_writes (_enable_pin s) (play s items)) d =
  if existsb (fun i => match i with Wait _ => false | _ => true end) items
  then LOW else d.
Proof.
  unfold play. revert d. induction items as [|[v m|v|us] items IH]; intros d;
    cbn [flat_map play_item existsb orb]; [reflexivity| | |exact (IH d)].
  - rewrite pin_writes_app, last_app_default, pin_writes_send_trace, IH.
    cbn [last]. now destruct (existsb _ items).
  - rewrite pin_writes_app, last_app_default, pin_writes_init4bits_trace, IH.
    cbn [last]. now destruct (existsb _ items).
Qed.

Section WithLayout.
Hypothesis layout : frame_layout hdr.

Lemma nibble_frame_not_zero value : negb (nibble_frame value =? 0) = true.
Proof.
  destruct layout as [Hrs Hen].
  destruct (Z.eqb_spec (nibble_frame value) 0) as [E|]; [|reflexivity].
  assert (H : Z.testbit (nibble_frame value) 7 = true).
  { unfold nibble_frame. rewrite u8_land_255, Z.land_spec, Z.lor_spec, Hen.
    now rewrite Z.pow2_bits_true by lia. }
  rewrite E in H. discriminate.
Qed.

Lemma nonzero_shifted_send_trace value mode s :
  filter (fun v => negb (v =? 0x00)) (shifted (send_trace value mode s)) =
  [upper_frame value mode; lower_frame value mode].
Proof.
  destruct (frames_are_not_zero layout value mode) as [Hu Hl].
  unfold send_trace, clear_register, strobe, load.
  destruct (truthy (_two_wire s)); cbn [app shifted filter];
    rewrite ?Hu, ?Hl; reflexivity.
Qed.

Lemma nonzero_shifted_init4bits_trace value s :
  filter (fun v => negb (v =? 0x00)) (shifted (init4bits_trace value s)) =
  [nibble_frame value].
Proof.
  pose proof (nibble_frame_not_zero value) as Hn.
  unfold init4bits_trace, clear_register, strobe, load.
  destruct (truthy (_two_wire s)); cbn [app shifted filter];
    rewrite ?Hn; reflexivity.
Qed.

Lemma frames_play s items : forall reg rest,
  exists reg',
    frames (_enable_pin s) reg (play s items ++ rest) =
    filter (fun v => negb (v =? 0x00)) (shifted (play s items)) ++
    frames (_enable_pin s) reg' rest.
Proof.
  unfold play. induction items as [|[v m|v|us] items IH]; intros reg rest;
    cbn [flat_map play_item].
  - now exists reg.
  - destruct (IH (lower_frame v m) rest) as [reg' H]. exists reg'.
    rewrite <- app_assoc, frames_send_trace, H.
    now rewrite shifted_app, filter_app, nonzero_shifted_send_trace.
  - destruct (IH (nibble_frame v) rest) as [reg' H]. exists reg'.
    rewrite <- app_assoc, frames_init4bits_trace, H.
    now rewrite shifted_app, filter_app, nonzero_shifted_init4bits_trace.
  - destruct (IH reg rest) as [reg' H]. exists reg'. exact H.
Qed.

End WithLayout.
End TraceProofs.

(** * The whole life of a driver object *)

Section LifetimeProofs.
Context {hdr : Header}.

(** Construction followed by any public operations: the three pin modes,
    then nothing but whole transmissions and waits. *)
Lemma lifetime_is_script srdata srclock enable lines font os s0 s t :
  (init srdata srclock enable lines font ;; session os) s0 = Some (tt, s, t) ->
  let s1 := constructed srdata srclock enable lines font in
  exists items,
    session_script os s1 = Some (s, items) /\
    wiring s = wiring s1 /\
    t = pin_modes s1 ++ play s1 (init_script s1 ++ items).
Proof.
  intros H s1. apply bind_inv in H.
  destruct H as ([] & s1' & t1 & t2 & Hinit & Hsession & ->).
  pose proof (init_is_script srdata srclock enable lines font s0) as Hi.
  cbv zeta in Hi. fold s1 in Hi. rewrite Hi in Hinit.
  assert (Hs1 : s1' = s1 /\ t1 = pin_modes s1 ++ play s1 (init_script s1))
    by (now inversion Hinit).
  destruct Hs1 as [-> ->].
  rewrite session_is_script in Hsession.
  destruct (session_script os s1) as [[s' items]|] eqn:E; [|discriminate].
  assert (Hs : s' = s /\ t2 = play s1 items) by (now inversion Hsession).
  destruct Hs as [-> ->].
  exists items. split; [reflexivity|]. split.
  - eapply session_script_wiring, E.
  - now rewrite play_app, app_assoc.
Qed.

Lemma enable_pin_of_wiring s s' :
  wiring s = wiring s' -> _enable_pin s = _enable_pin s'.
Proof. unfold wiring. congruence. Qed.

Lemma on_wiring_of_wiring s s' e :
  wiring s = wiring s' -> on_wiring s e = on_wiring s' e.
Proof.
  unfold wiring. intros H. injection H as Hd Hc He Ht.
  destruct e; cbn [on_wiring]; now rewrite ?Hd, ?Hc, ?He.
Qed.

Lemma forallb_on_wiring_of_wiring s s' t :
  wiring s = wiring s' ->
  forallb (on_wiring s) t = forallb (on_wiring s') t.
Proof.
  intros H. induction t as [|e t IH]; [reflexivity|].
  cbn [forallb]. now rewrite IH, (on_wiring_of_wiring s s' e H).
Qed.

End LifetimeProofs.

(** X7: from construction on, whatever operations follow, every rise of the
    enable pin is followed by a delay of at least a microsecond and a
    write of [LOW] to it, and the last level written to it is [LOW]. *)
Theorem lifetime_enable_pulses (hdr : Header)
    (srdata srclock enable lines font : Z) (os : list op)
    (s0 s : ShiftRegLCD) (t : list event) :
  (init srdata srclock enable lines font ;; session os) s0 = Some (tt, s, t) ->
  pulsed (_enable_pin s) t = true /\
  last (pin_writes (_enable_pin s) t) HIGH = LOW.
Proof.
  intros H. apply lifetime_is_script in H. cbv zeta in H.
  destruct H as (items & _ & Hw & ->).
  rewrite (enable_pin_of_wiring _ _ Hw).
  set (s1 := constructed srdata srclock enable lines font).
  split.
  - unfold pin_modes. cbn [app pulsed].
    rewrite <- (app_nil_r (play s1 _)). now rewrite pulsed_play.
  - unfold pin_modes. cbn [app pin_writes].
    now rewrite last_pin_writes_play.
Qed.

Section ShapeProofs.
Context {hdr : Header}.
Hypothesis layout : frame_layout hdr.

Lemma frame_bit a y n :
  Z.testbit (u8 (Z.lor (Z.lor a 128) (Z.land y 120))) n =
  ((Z.testbit a n || Z.testbit 128 n) || (Z.testbit y n && Z.testbit 120 n))
  && Z.testbit 255 n.
Proof.
  now rewrite u8_land_255, Z.land_spec, !Z.lor_spec, Z.land_spec.
Qed.

Lemma frame_shape a y :
  a = 4 \/ a = 0 ->
  clear_or_frame (u8 (Z.lor (Z.lor a 128) (Z.land y 120))) = true.
Proof.
  intros Ha. unfold clear_or_frame.
  destruct (u8_range (Z.lor (Z.lor a 128) (Z.land y 120))) as [Hlo Hhi].
  rewrite (proj2 (Z.leb_le _ _) Hlo), (proj2 (Z.ltb_lt _ _) Hhi).
  rewrite !frame_bit.
  destruct Ha as [-> | ->];
    destruct (Z.testbit y 7), (Z.testbit y 1), (Z.testbit y 0);
    cbn; apply orb_true_r.
Qed.

Lemma clear_or_frame_upper value mode :
  clear_or_frame (upper_frame value mode) = true.
Proof.
  destruct layout as [Hrs Hen]. unfold upper_frame, rs_bit.
  rewrite Hrs, Hen. apply frame_shape. destruct (truthy mode); auto.
Qed.

Lemma clear_or_frame_lower value mode :
  clear_or_frame (lower_frame value mode) = true.
Proof.
  destruct layout as [Hrs Hen]. unfold lower_frame, rs_bit.
  rewrite Hrs, Hen. apply frame_shape. destruct (truthy mode); auto.
Qed.

Lemma clear_or_frame_nibble value :
  clear_or_frame (nibble_frame value) = true.
Proof.
  destruct layout as [Hrs Hen]. unfold nibble_frame. rewrite Hen.
  rewrite <- (Z.lor_0_l (2 ^ 7)). apply frame_shape. auto.
Qed.

Lemma clear_or_frame_play s items :
  forallb clear_or_frame (shifted (play s items)) = true.
Proof.
  unfold play. induction items as [|[v m|v|us] items IH];
    cbn [flat_map play_item]; rewrite ?shifted_app, ?forallb_app, ?IH;
    try reflexivity; rewrite andb_true_r.
  - unfold send_trace, clear_register, strobe, load.
    destruct (truthy (_two_wire s)); cbn [app shifted forallb];
      now rewrite clear_or_frame_upper, clear_or_frame_lower.
  - unfold init4bits_trace, clear_register, strobe, load.
    destruct (truthy (_two_wire s)); cbn [app shifted forallb];
      now rewrite clear_or_frame_nibble.
Qed.

(** With a dedicated enable pin nothing but frames is shifted. *)
Lemma three_wire_shifted_play s items :
  truthy (_two_wire s) = false ->
  filter (fun v => negb (v =? 0x00)) (shifted (play s items)) =
  shifted (play s items).
Proof.
  intros Htw. unfold play. induction items as [|[v m|v|us] items IH];
    cbn [flat_map play_item]; rewrite ?shifted_app, ?filter_app, ?IH;
    try reflexivity; f_equal.
  - rewrite nonzero_shifted_send_trace by assumption.
    unfold send_trace, clear_register. now rewrite Htw.
  - rewrite nonzero_shifted_init4bits_trace by assumption.
    unfold init4bits_trace, clear_register. now rewrite Htw.
Qed.

(** What the controller receives from a script of [send]s of bytes. *)
Lemma bytes_of_play s items : forall reg,
  Forall (fun i => match i with
                   | Send value _ => is_u8 value
                   | Nibble _ => False
                   | Wait _ => True
                   end) items ->
  bytes_of_frames (frames (_enable_pin s) reg (play s items)) =
  wire_bytes items.
Proof.
  unfold play, wire_bytes.
  induction items as [|[v m|v|us] items IH]; intros reg Hall;
    cbn [flat_map play_item]; inversion Hall as [|? ? Hi Hrest]; subst.
  - reflexivity.
  - rewrite frames_send_trace. cbn [bytes_of_frames app].
    destruct (frames_carry_byte layout v m Hi) as (-> & -> & _).
    now rewrite IH.
  - contradiction.
  - cbn [app frames]. now apply IH.
Qed.

End ShapeProofs.

Lemma Forall_firstn_of {A} (P : A -> Prop) n : forall l,
  Forall P l -> Forall P (firstn n l).
Proof.
  induction n as [|n IH]; intros l H; [constructor|].
  destruct H as [|x l Hx Hl]; cbn [firstn]; constructor; auto.
Qed.

Section ScriptBytes.
Context {hdr : Header}.

Lemma script_sends_bytes o s s' items :
  byte_args o ->
  script o s = Some (s', items) ->
  Forall (fun i => match i with
                   | Send value _ => is_u8 value
                   | Nibble _ => False
                   | Wait _ => True
                   end) items.
Proof.
  destruct o as [| |col row|sw| | |location charmap|value|value];
    intros Hargs H; unfold script in H; cbn [byte_args] in Hargs;
    try (destruct (_ && _); [|discriminate]);
    try (destruct (_ <=? _)%nat; [|discriminate]);
    match type of H with
    | Some (_, ?x) = _ => replace items with x by congruence
    end; clear H.
  7:{ constructor; [apply u8_range|]. apply Forall_app. split.
      - apply Forall_map. now apply Forall_firstn_of.
      - constructor; [apply u8_range | constructor]. }
  all: repeat (apply Forall_cons || apply Forall_nil);
    try apply u8_range; try exact I; try assumption.
Qed.

Lemma session_script_sends_bytes os : forall s s' items,
  Forall byte_args os ->
  session_script os s = Some (s', items) ->
  Forall (fun i => match i with
                   | Send value _ => is_u8 value
                   | Nibble _ => False
                   | Wait _ => True
                   end) items.
Proof.
  induction os as [|o os IH]; intros s s' items Hargs H;
    cbn [session_script] in H.
  - inversion H. constructor.
  - inversion Hargs as [|? ? Ho Hos]; subst.
    destruct (script o s) as [[s1 items1]|] eqn:E; [|discriminate].
    destruct (session_script os s1) as [[s2 items2]|] eqn:E2; [|discriminate].
    inversion H; subst. apply Forall_app. split.
    + eapply script_sends_bytes; eassumption.
    + eapply IH; eassumption.
Qed.

End ScriptBytes.

(** X8: from construction on, the driver touches only its three pins: pin
    modes are [OUTPUT] on one of them, [digitalWrite] goes to the enable
    pin (the data pin when [enable] is [TWO_WIRE]) with [LOW] or [HIGH],
    and [shiftOut] goes most significant bit first to the data and clock
    pins given to [init]. *)
Theorem lifetime_stays_on_wiring (hdr : Header)
    (srdata srclock enable lines font : Z) (os : list op)
    (s0 s : ShiftRegLCD) (t : list event) :
  (init srdata srclock enable lines font ;; session os) s0 = Some (tt, s, t) ->
  _srdata_pin s = srdata /\ _srclock_pin s = srclock /\
  _enable_pin s = (if enable =? TWO_WIRE then srdata else enable) /\
  forallb (on_wiring s) t = true.
Proof.
  intros H. apply lifetime_is_script in H. cbv zeta in H.
  destruct H as (items & _ & Hw & ->).
  set (s1 := constructed srdata srclock enable lines font) in *.
  assert (Hpins : _srdata_pin s = srdata /\ _srclock_pin s = srclock /\
                  _enable_pin s = (if enable =? TWO_WIRE then srdata else enable)).
  { unfold wiring in Hw. injection Hw as -> -> -> _. now subst s1. }
  destruct Hpins as (Hd & Hc & He). repeat split; try assumption.
  rewrite (forallb_on_wiring_of_wiring s s1 _ Hw).
  rewrite forallb_app, on_wiring_play, andb_true_r.
  unfold pin_modes. cbn [forallb on_wiring].
  now rewrite !Z.eqb_refl, !orb_true_r.
Qed.

(** X9: from construction on, the frames the controller latches are the
    non-zero values shifted into the register, each once and in order; and
    every value shifted is either 0x00 or a byte with bit 7 set and bits 1
    and 0 clear. *)
Theorem lifetime_latches_what_it_shifts (hdr : Header)
    (srdata srclock enable lines font : Z) (os : list op)
    (s0 s : ShiftRegLCD) (t : list event) (reg : Z) :
  frame_layout hdr ->
  (init srdata srclock enable lines font ;; session os) s0 = Some (tt, s, t) ->
  frames (_enable_pin s) reg t =
  filter (fun v => negb (v =? 0x00)) (shifted t) /\
  forallb clear_or_frame (shifted t) = true.
Proof.
  intros layout H. apply lifetime_is_script in H. cbv zeta in H.
  destruct H as (items & _ & Hw & ->).
  rewrite (enable_pin_of_wiring _ _ Hw).
  set (s1 := constructed srdata srclock enable lines font).
  unfold pin_modes. cbn [app frames shifted]. split.
  - destruct (frames_play layout s1 (init_script s1 ++ items) reg [])
      as [reg' Hf].
    rewrite app_nil_r in Hf. rewrite Hf. cbn [frames]. apply app_nil_r.
  - now apply clear_or_frame_play.
Qed.

(** X10: with a dedicated enable pin ([enable] other than [TWO_WIRE])
    two-wire mode stays off and the register is never cleared: the values
    shifted are exactly the frames latched. *)
Theorem three_wire_shifts_only_frames (hdr : Header)
    (srdata srclock enable lines font : Z) (os : list op)
    (s0 s : ShiftRegLCD) (t : list event) (reg : Z) :
  frame_layout hdr ->
  enable <> TWO_WIRE ->
  (init srdata srclock enable lines font ;; session os) s0 = Some (tt, s, t) ->
  _enable_pin s = enable /\
  _two_wire s = 0 /\
  shifted t = frames enable reg t.
Proof.
  intros layout Hen H. apply lifetime_is_script in H. cbv zeta in H.
  destruct H as (items & _ & Hw & ->).
  set (s1 := constructed srdata srclock enable lines font) in *.
  assert (Hs1 : _enable_pin s1 = enable /\ _two_wire s1 = 0).
  { subst s1. unfold constructed; cbn [_enable_pin _two_wire].
    now rewrite (proj2 (Z.eqb_neq _ _) Hen). }
  destruct Hs1 as [He Ht].
  assert (Hs : _enable_pin s = enable /\ _two_wire s = 0)
    by (unfold wiring in Hw; split; congruence).
  destruct Hs as [He' Ht']. repeat split; try assumption.
  unfold pin_modes. cbn [app frames shifted]. rewrite <- He.
  destruct (frames_play layout s1 (init_script s1 ++ items) reg [])
    as [reg' Hf].
  rewrite app_nil_r in Hf. rewrite Hf. cbn [frames]. rewrite app_nil_r.
  symmetry. apply three_wire_shifted_play; [assumption|].
  now rewrite Ht.
Qed.

(** X5: the bytes the controller assembles from the frames of a sequence
    of operations are the bytes of its script, in order and with their
    command/data flag, provided the arguments passed on as they are
    ([command], [write], glyph rows) are bytes. *)
Theorem session_round_trip (hdr : Header) (os : list op)
    (s s' : ShiftRegLCD) (t : list event) :
  frame_layout hdr ->
  Forall byte_args os ->
  session os s = Some (tt, s', t) ->
  exists items,
    session_script os s = Some (s', items) /\
    transmitted (_enable_pin s) t = wire_bytes items.
Proof.
  intros layout Hargs H. rewrite session_is_script in H.
  destruct (session_script os s) as [[s1 items]|] eqn:E; [|discriminate].
  assert (Hs : s1 = s' /\ t = play s items) by (now inversion H).
  destruct Hs as [-> ->]. exists items. split; [reflexivity|].
  unfold transmitted. apply bytes_of_play; [assumption|].
  eapply session_script_sends_bytes; eassumption.
Qed.

(** X6: writing a list of bytes one after the other leaves the object as
    it was and delivers exactly these bytes, in order, as character data. *)
Theorem written_bytes_arrive (hdr : Header) (bytes : list Z)
    (s : ShiftRegLCD) :
  frame_layout hdr ->
  Forall is_u8 bytes ->
  exists t,
    session (map Write bytes) s = Some (tt, s, t) /\
    transmitted (_enable_pin s) t = map (fun b => (true, b)) bytes.
Proof.
  intros layout Hbytes.
  assert (Hscript : session_script (map Write bytes) s =
                    Some (s, map (fun b => Send b HIGH) bytes)).
  { induction bytes as [|b bytes IH]; [reflexivity|].
    inversion Hbytes; subst. cbn [map session_script script].
    now rewrite IH. }
  exists (play s (map (fun b => Send b HIGH) bytes)).
  split; [now rewrite session_is_script, Hscript|].
  unfold transmitted. rewrite bytes_of_play; [|assumption|].
  - unfold wire_bytes. clear. induction bytes as [|b bytes IH];
      [reflexivity|]. cbn [map flat_map app]. now rewrite IH.
  - clear Hscript. induction Hbytes; constructor; assumption.
Qed.

(** X4: a sequence of public operations does exactly what its script says:
    it has no defined result when a [setCursor] subscripts outside
    [row_offsets] or a [createChar] is given fewer than eight rows, and
    otherwise its calls to the platform are whole [send]s and waits, one
    operation after the other. *)
Theorem session_runs_its_script (hdr : Header) (os : list op)
    (s : ShiftRegLCD) :
  session os s =
  match session_script os s with
  | Some (s', items) => Some (tt, s', play s items)
  | None => None
  end.
Proof. apply session_is_script. Qed.

(** * Timing *)

Section TimingProofs.
Context {hdr : Header}.

Lemma total_delay_play s items :
  total_delay (play s items) = fold_right Z.add 0 (map item_delay items).
Proof.
  unfold play. induction items as [|[v m|v|us] items IH];
    cbn [flat_map play_item map fold_right item_delay];
    rewrite ?total_delay_app, ?total_delay_send_trace,
      ?total_delay_init4bits_trace, ?IH; cbn [total_delay]; lia.
Qed.

Lemma total_delay_play_sends s (rows : list Z) mode :
  total_delay (play s (map (fun row => Send row mode) rows)) =
  42 * Z.of_nat (length rows).
Proof.
  unfold play. induction rows as [|row rows IH]; [reflexivity|].
  cbn [map flat_map play_item length].
  rewrite total_delay_app, total_delay_send_trace, IH. lia.
Qed.

Lemma script_delay o s s' items :
  script o s = Some (s', items) -> total_delay (play s items) = op_delay o.
Proof.
  destruct o as [| |col row|sw| | |location charmap|value|value];
    intros H; unfold script in H;
    try (destruct (_ && _); [|discriminate]);
    try (destruct (8 <=? length charmap)%nat eqn:E; [|discriminate]);
    match type of H with
    | Some (_, ?x) = _ => replace items with x by congruence
    end; clear H.
  7:{ change (Send ?a ?b :: ?l ++ ?r) with ([Send a b] ++ l ++ r).
      rewrite !play_app, !total_delay_app, total_delay_play_sends.
      apply Nat.leb_le in E. rewrite length_firstn, Nat.min_l by exact E.
      unfold play. cbn [flat_map play_item].
      rewrite !app_nil_r, !total_delay_send_trace. reflexivity. }
  all: unfold play; cbn [flat_map play_item op_delay];
    rewrite ?total_delay_app, ?total_delay_send_trace; reflexivity.
Qed.

Lemma session_script_delay os : forall s s' items,
  session_script os s = Some (s', items) ->
  total_delay (play s items) = fold_right Z.add 0 (map op_delay os).
Proof.
  induction os as [|o os IH]; intros s s' items H; cbn [session_script] in H.
  - now inversion H.
  - destruct (script o s) as [[s1 items1]|] eqn:E; [|discriminate].
    destruct (session_script os s1) as [[s2 items2]|] eqn:E2; [|discriminate].
    inversion H; subst. cbn [map fold_right].
    rewrite play_app, total_delay_app, (script_delay _ _ _ _ E).
    rewrite <- (play_wiring items2 s s1 (script_wiring _ _ _ _ E)).
    now rewrite (IH _ _ _ E2).
Qed.

End TimingProofs.

(** X11: a sequence of operations waits the sum of the delays of its
    operations: 2042 microseconds for [clear] and [home], 420 for
    [createChar] (ten [send]s), 42 for every other operation. *)
Theorem session_waits_op_delays (hdr : Header) (os : list op)
    (s s' : ShiftRegLCD) (t : list event) :
  session os s = Some (tt, s', t) ->
  total_delay t = fold_right Z.add 0 (map op_delay os).
Proof.
  intros H. rewrite session_is_script in H.
  destruct (session_script os s) as [[s1 items]|] eqn:E; [|discriminate].
  assert (Ht : t = play s items) by (now inversion H). subst t.
  eapply session_script_delay, E.
Qed.

(** X2: whatever its arguments and the wiring, [init] returns and spends
    59 024 microseconds in [delayMicroseconds]. *)
Theorem init_waits_59024_us (hdr : Header)
    (srdata srclock enable lines font : Z) (s0 : ShiftRegLCD) :
  exists s t,
    init srdata srclock enable lines font s0 = Some (tt, s, t) /\
    total_delay t = 59024.
Proof.
  exists (constructed srdata srclock enable lines font).
  eexists. split; [apply init_is_script|].
  rewrite total_delay_app, total_delay_play. reflexivity.
Qed.

(** * Construction *)

(** X1: [init] overwrites every member before it reads one, and looks at
    [lines] only through [lines > 1] and at [font] only through
    [font != 0]: the object it leaves and the calls it makes do not depend
    on the object it started from, and, say, four lines are set up exactly
    as two. *)
Theorem init_forgets_prior_object (hdr : Header)
    (srdata srclock enable lines font lines' font' : Z)
    (s0 s0' : ShiftRegLCD) :
  (lines >? 1) = (lines' >? 1) ->
  (font =? 0) = (font' =? 0) ->
  init srdata srclock enable lines font s0 =
  init srdata srclock enable lines' font' s0'.
Proof.
  intros Hl Hf. rewrite !init_eq. cbv zeta.
  unfold constructed. now rewrite Hl, Hf.
Qed.

(** X21: the constructors are [init] with defaults, whatever object they
    start from: three arguments mean one line and the 8-pixel font, as
    does any line count below two; four arguments mean the 8-pixel font,
    for every line count. *)
Theorem constructors_default_to_5x8 (hdr : Header)
    (srdata srclock enable lines1 lines : Z) (s0 s0' : ShiftRegLCD) :
  lines1 <= 1 ->
  ShiftRegLCD3 srdata srclock enable s0 =
  ShiftRegLCD5 srdata srclock enable lines1 0 s0' /\
  ShiftRegLCD4 srdata srclock enable lines s0 =
  ShiftRegLCD5 srdata srclock enable lines 0 s0'.
Proof.
  intros Hlines. unfold ShiftRegLCD3, ShiftRegLCD4, ShiftRegLCD5.
  rewrite !init_eq. cbv zeta. unfold constructed.
  destruct (Z.gtb_spec lines1 1); [lia|]. split; reflexivity.
Qed.

(** X3: for every byte, [init4bits] makes the controller latch exactly one
    frame; its data lines carry the high nibble of the byte and its RS line
    is low. *)
Theorem init4bits_latches_high_nibble (hdr : Header) (s : ShiftRegLCD)
    (value reg : Z) :
  frame_layout hdr ->
  is_u8 value ->
  exists frame t,
    init4bits value s = Some (tt, s, t) /\
    frames (_enable_pin s) reg t = [frame] /\
    frame_data frame = Z.shiftr value 4 /\
    frame_rs frame = false.
Proof.
  intros [_ Hen] Hv.
  exists (nibble_frame value), (init4bits_trace value s).
  split; [apply init4bits_eq|]. split.
  - rewrite <- (app_nil_r (init4bits_trace value s)).
    now rewrite frames_init4bits_trace.
  - assert (H : nibble_ok value = true)
      by (apply all_bytes; [vm_compute; reflexivity | exact Hv]).
    unfold nibble_ok in H. cbv zeta in H.
    unfold nibble_frame. rewrite Hen.
    rewrite andb_true_iff, Z.eqb_eq, negb_true_iff in H. exact H.
Qed.

(** * The algebra of the switches *)

Ltac bitwise :=
  apply Z.bits_inj'; intros ?n ?Hn;
  rewrite ?Z.land_spec, ?Z.lor_spec, ?Z.lnot_spec, ?Z.land_spec,
    ?Z.lor_spec, ?Z.lnot_spec, ?Z.land_spec, ?Z.lor_spec, ?Z.bits_0
    by assumption;
  repeat match goal with
         | |- context [Z.testbit ?a ?n] =>
             is_var n; destruct (Z.testbit a n)
         end;
  reflexivity.

Lemma lor_then_land_lnot x b :
  u8 (Z.land (u8 (Z.lor x b)) (Z.lnot b)) = u8 (Z.land x (Z.lnot b)).
Proof. rewrite !u8_land_255. bitwise. Qed.

Lemma land_lnot_then_lor x b :
  u8 (Z.lor (u8 (Z.land x (Z.lnot b))) b) = u8 (Z.lor x b).
Proof. rewrite !u8_land_255. bitwise. Qed.

Lemma land_lnot_absorb x b :
  u8 (Z.land (u8 (Z.land x (Z.lnot b))) (Z.lnot b)) = u8 (Z.land x (Z.lnot b)).
Proof. rewrite !u8_land_255. bitwise. Qed.

Lemma set_bits_are_set x b : Z.land (u8 (Z.lor x b)) b = u8 b.
Proof. rewrite !u8_land_255. bitwise. Qed.

Lemma cleared_bits_are_clear x b : Z.land (u8 (Z.land x (Z.lnot b))) b = 0.
Proof. rewrite !u8_land_255. bitwise. Qed.

Lemma set_keeps_other_bits x b :
  Z.land (u8 (Z.lor x b)) (Z.lnot b) = Z.land (u8 x) (Z.lnot b).
Proof. rewrite !u8_land_255. bitwise. Qed.

Lemma clear_keeps_other_bits x b :
  Z.land (u8 (Z.land x (Z.lnot b))) (Z.lnot b) = Z.land (u8 x) (Z.lnot b).
Proof. rewrite !u8_land_255. bitwise. Qed.

Section SwitchAlgebra.
Context {hdr : Header}.

Lemma toggle_twice sw x : toggle sw (toggle sw x) = toggle sw x.
Proof.
  unfold toggle. destruct (switch_sets sw);
    [apply u8_lor_absorb | apply land_lnot_absorb].
Qed.

Lemma toggle_opposite sw x :
  toggle (opposite sw) (toggle sw x) = toggle (opposite sw) x.
Proof.
  destruct sw; unfold toggle; cbn [opposite switch_sets switch_bit];
    apply lor_then_land_lnot || apply land_lnot_then_lor.
Qed.

Lemma switch_mask_opposite sw : switch_mask (opposite sw) = switch_mask sw.
Proof. now destruct sw. Qed.

Lemma store_store m v v' s : store m v (store m v' s) = store m v s.
Proof. now destruct m. Qed.

End SwitchAlgebra.

(** X13: every switch is idempotent: called a second time it leaves the
    object as the first call left it and makes the same calls. *)
Theorem switch_twice_same (hdr : Header) (sw : switch) (s : ShiftRegLCD) :
  exists s1 t,
    run_switch sw s = Some (tt, s1, t) /\
    run_switch sw s1 = Some (tt, s1, t).
Proof.
  pose proof (run_switch_eq sw s) as H1. cbv zeta in H1.
  set (m := switch_mask sw) in *.
  set (s1 := store m (toggle sw (cached m s)) s) in *.
  pose proof (run_switch_eq sw s1) as H2. cbv zeta in H2. fold m in H2.
  assert (Hs : store m (toggle sw (cached m s1)) s1 = s1).
  { subst s1. now rewrite cached_store, toggle_twice, store_store. }
  rewrite Hs in H2. eexists. eexists. split; eassumption.
Qed.

(** X14: a switch followed by its opposite ([display] then [noDisplay],
    ...) ends in the object, and sends as last command the byte, that the
    opposite switch alone would have. *)
Theorem opposite_switch_wins (hdr : Header) (sw : switch) (s : ShiftRegLCD) :
  exists s1 t1 s2 t2,
    run_switch sw s = Some (tt, s1, t1) /\
    run_switch (opposite sw) s1 = Some (tt, s2, t2) /\
    run_switch (opposite sw) s = Some (tt, s2, t2).
Proof.
  pose proof (run_switch_eq sw s) as H1. cbv zeta in H1.
  set (m := switch_mask sw) in *.
  set (s1 := store m (toggle sw (cached m s)) s) in *.
  pose proof (run_switch_eq (opposite sw) s1) as H2.
  pose proof (run_switch_eq (opposite sw) s) as H3.
  cbv zeta in H2, H3. rewrite switch_mask_opposite in H2, H3.
  fold m in H2, H3.
  assert (Hs : store m (toggle (opposite sw) (cached m s1)) s1 =
               store m (toggle (opposite sw) (cached m s)) s).
  { subst s1. now rewrite cached_store, toggle_opposite, store_store. }
  rewrite Hs in H2. do 4 eexists. repeat split; eassumption.
Qed.

(** X15: after a setting switch the cached mask has the bits of the
    switch's flag (as far as they fit a byte), after a clearing switch it
    has none of them; all other bits of the mask are as they were. *)
Theorem switch_touches_only_its_bit (hdr : Header) (sw : switch)
    (s : ShiftRegLCD) :
  let m := switch_mask sw in
  exists s' t,
    run_switch sw s = Some (tt, s', t) /\
    Z.land (cached m s') (switch_bit sw) =
    (if switch_sets sw then u8 (switch_bit sw) else 0) /\
    Z.land (cached m s') (Z.lnot (switch_bit sw)) =
    Z.land (u8 (cached m s)) (Z.lnot (switch_bit sw)).
Proof.
  intros m. pose proof (run_switch_eq sw s) as H1. cbv zeta in H1. fold m in H1.
  do 2 eexists. split; [exact H1|].
  rewrite cached_store. unfold toggle. destruct (switch_sets sw).
  - split; [apply set_bits_are_set | apply set_keeps_other_bits].
  - split; [apply cleared_bits_are_clear | apply clear_keeps_other_bits].
Qed.

(** * Glyphs, cursor, and what operations leave alone *)

(** X16: [createChar] depends on its location only modulo 8. *)
Theorem createChar_location_mod_8 (hdr : Header) (location location' : Z)
    (glyph : list Z) (s : ShiftRegLCD) :
  location mod 8 = location' mod 8 ->
  createChar location glyph s = createChar location' glyph s.
Proof.
  intros H. unfold createChar. change 7 with (Z.ones 3).
  rewrite !Z.land_ones by lia. change (2 ^ 3) with 8. now rewrite H.
Qed.

(** X17: [createChar] reads exactly the first eight rows of the glyph: with
    fewer it has no defined result (it reads past the array), with more the
    rest is ignored; it sends the set-CGRAM-address command, the eight rows
    as data and the set-DDRAM-address command, and leaves the object as it
    was. *)
Theorem createChar_reads_eight_rows (hdr : Header) (location : Z)
    (glyph : list Z) (s : ShiftRegLCD) :
  createChar location glyph s =
  if (8 <=? length glyph)%nat
  then Some (tt, s,
             send_trace (u8 (Z.lor LCD_SETCGRAMADDR
                               (Z.shiftl (u8 (Z.land location 0x7)) 3)))
               LOW s ++
             flat_map (fun row => send_trace row HIGH s) (firstn 8 glyph) ++
             send_trace (u8 LCD_SETDDRAMADDR) LOW s)
  else None.
Proof.
  change (createChar location glyph s) with (exec (CreateChar location glyph) s).
  rewrite exec_script. cbn [script].
  destruct (8 <=? length glyph)%nat; [|reflexivity].
  change (Send ?a ?b :: ?l ++ ?r) with ([Send a b] ++ l ++ r).
  rewrite !play_app. unfold play. cbn [flat_map play_item].
  rewrite !app_nil_r.
  assert (Hrows : forall rows,
            flat_map (play_item s) (map (fun row => Send row HIGH) rows) =
            flat_map (fun row => send_trace row HIGH s) rows).
  { induction rows as [|row rows IH]; [reflexivity|].
    cbn [map flat_map play_item]. now rewrite IH. }
  now rewrite Hrows.
Qed.

(** X19: [setCursor] has a defined result for every column and every row
    exactly when [_numlines] holds 1, 2 or 3. *)
Theorem setCursor_total_iff_numlines_1_to_3 (hdr : Header) (s : ShiftRegLCD) :
  is_u8 (_numlines s) ->
  (forall col row, is_u8 row -> setCursor col row s <> None) <->
  1 <= _numlines s <= 3.
Proof.
  intros Hn. rewrite <- (clamp_row_in_table (_numlines s) Hn). split.
  - intros H row Hrow. apply (setCursor_defined 0 row s). now apply H.
  - intros H col row Hrow. apply setCursor_defined. now apply H.
Qed.

(** X20: for a row not above [_numlines] and inside the table, [setCursor]
    sends the set-DDRAM-address command for [col + row_offsets[row]]
    (truncated to a byte) and leaves the object as it was. *)
Theorem setCursor_within_numlines (hdr : Header) (col row : Z)
    (s : ShiftRegLCD) :
  row <= _numlines s ->
  0 <= row < 4 ->
  setCursor col row s =
  Some (tt, s,
        send_trace (u8 (Z.lor LCD_SETDDRAMADDR
                          (col + nth (Z.to_nat row) row_offsets 0))) LOW s).
Proof.
  intros Hrow Hrange.
  change (setCursor col row s) with (exec (SetCursor col row) s).
  rewrite exec_script. cbn [script]. unfold clamp_row.
  destruct (Z.gtb_spec row (_numlines s)); [lia|].
  destruct (Z.leb_spec 0 row); [|lia].
  destruct (Z.ltb_spec row 4); [|lia]. cbn [andb].
  unfold play. cbn [flat_map play_item]. now rewrite app_nil_r.
Qed.

(** X12: no public operation changes the pins, the two-wire flag,
    [_numlines] or [_displayfunction], and an operation leaves a cached
    mask as it was unless it is a switch of that mask. *)
Theorem operations_keep_configuration (hdr : Header) (o : op)
    (s s' : ShiftRegLCD) (t : list event) :
  exec o s = Some (tt, s', t) ->
  wiring s' = wiring s /\
  _numlines s' = _numlines s /\
  _displayfunction s' = _displayfunction s /\
  (forall m, op_mask o <> Some m -> cached m s' = cached m s).
Proof.
  intros H. rewrite exec_script in H.
  destruct (script o s) as [[s1 items]|] eqn:E; [|discriminate].
  assert (Hs : s1 = s') by (now inversion H). subst s1. clear H.
  destruct o as [| |col row|sw| | |location charmap|value|value];
    unfold script in E;
    try (destruct (_ && _); [|discriminate]);
    try (destruct (_ <=? _)%nat; [|discriminate]);
    try (assert (Hs : s' = s) by congruence; subst s'; repeat split).
  assert (Hs : s' = store (switch_mask sw)
                      (toggle sw (cached (switch_mask sw) s)) s) by congruence.
  subst s'. split; [apply store_wiring|].
  split; [now destruct (switch_mask sw)|].
  split; [now destruct (switch_mask sw)|].
  intros m Hm. cbn [op_mask] in Hm. apply cached_store_other.
  destruct (mask_eqb (switch_mask sw) m) eqn:Eb; [|reflexivity].
  apply mask_eqb_true in Eb. congruence.
Qed.

(** * Instances on the HD44780 header *)

Section MoreOnTheHD44780.
#[local] Existing Instance ShiftRegLCD_h.

Lemma lifetime_enable_pulses_witness :
  exists s t,
    (init 11 12 10 2 0 ;; session [Clear; Write 0x41]) example_object =
    Some (tt, s, t) /\
    pulsed (_enable_pin s) t = true /\
    last (pin_writes (_enable_pin s) t) HIGH = LOW.
Proof.
  eexists. eexists.
  assert (H : (init 11 12 10 2 0 ;; session [Clear; Write 0x41])
                example_object = Some (tt, ?[s], ?[t]))
    by (vm_compute; reflexivity).
  split; [exact H|].
  exact (lifetime_enable_pulses ShiftRegLCD_h 11 12 10 2 0
           [Clear; Write 0x41] example_object _ _ H).
Defined.

Lemma lifetime_stays_on_wiring_witness :
  exists s t,
    (init 11 12 TWO_WIRE 2 0 ;; session [Home; Switch Blink]) example_object =
    Some (tt, s, t) /\
    _srdata_pin s = 11 /\ _srclock_pin s = 12 /\
    _enable_pin s = (if TWO_WIRE =? TWO_WIRE then 11 else TWO_WIRE) /\
    forallb (on_wiring s) t = true.
Proof.
  eexists. eexists.
  assert (H : (init 11 12 TWO_WIRE 2 0 ;; session [Home; Switch Blink])
                example_object = Some (tt, ?[s], ?[t]))
    by (vm_compute; reflexivity).
  split; [exact H|].
  exact (lifetime_stays_on_wiring ShiftRegLCD_h 11 12 TWO_WIRE 2 0
           [Home; Switch Blink] example_object _ _ H).
Defined.

Lemma lifetime_latches_what_it_shifts_witness :
  frame_layout ShiftRegLCD_h /\
  exists s t,
    (init 11 12 TWO_WIRE 2 0 ;; session [SetCursor 3 1; Write 0x41])
      example_object = Some (tt, s, t) /\
    frames (_enable_pin s) 0 t =
    filter (fun v => negb (v =? 0x00)) (shifted t) /\
    forallb clear_or_frame (shifted t) = true.
Proof.
  assert (Hl : frame_layout ShiftRegLCD_h) by (split; reflexivity).
  split; [exact Hl|]. eexists. eexists.
  assert (H : (init 11 12 TWO_WIRE 2 0 ;; session [SetCursor 3 1; Write 0x41])
                example_object = Some (tt, ?[s], ?[t]))
    by (vm_compute; reflexivity).
  split; [exact H|].
  exact (lifetime_latches_what_it_shifts ShiftRegLCD_h 11 12 TWO_WIRE 2 0
           [SetCursor 3 1; Write 0x41] example_object _ _ 0 Hl H).
Defined.

Lemma three_wire_shifts_only_frames_witness :
  frame_layout ShiftRegLCD_h /\ 10 <> TWO_WIRE /\
  exists s t,
    (init 11 12 10 2 0 ;; session [Write 0x41]) example_object =
    Some (tt, s, t) /\
    _enable_pin s = 10 /\ _two_wire s = 0 /\ shifted t = frames 10 0 t.
Proof.
  assert (Hl : frame_layout ShiftRegLCD_h) by (split; reflexivity).
  assert (Hen : 10 <> TWO_WIRE) by (vm_compute; discriminate).
  split; [exact Hl|]. split; [exact Hen|]. eexists. eexists.
  assert (H : (init 11 12 10 2 0 ;; session [Write 0x41]) example_object =
              Some (tt, ?[s], ?[t]))
    by (vm_compute; reflexivity).
  split; [exact H|].
  exact (three_wire_shifts_only_frames ShiftRegLCD_h 11 12 10 2 0
           [Write 0x41] example_object _ _ 0 Hl Hen H).
Defined.

Lemma session_round_trip_witness :
  frame_layout ShiftRegLCD_h /\
  Forall byte_args [Clear; SetCursor 0 1; Write 0x41] /\
  exists s' t items,
    session [Clear; SetCursor 0 1; Write 0x41] example_object =
    Some (tt, s', t) /\
    session_script [Clear; SetCursor 0 1; Write 0x41] example_object =
    Some (s', items) /\
    transmitted (_enable_pin example_object) t = wire_bytes items /\
    wire_bytes items = [(false, 0x01); (false, 0xC0); (true, 0x41)].
Proof.
  assert (Hl : frame_layout ShiftRegLCD_h) by (split; reflexivity).
  assert (Ha : Forall byte_args [Clear; SetCursor 0 1; Write 0x41])
    by (repeat constructor; unfold is_u8; lia).
  split; [exact Hl|]. split; [exact Ha|]. eexists. eexists.
  assert (H : session [Clear; SetCursor 0 1; Write 0x41] example_object =
              Some (tt, ?[s], ?[t]))
    by (vm_compute; reflexivity).
  destruct (session_round_trip ShiftRegLCD_h
              [Clear; SetCursor 0 1; Write 0x41] example_object _ _ Hl Ha H)
    as (items & Hscript & Hbytes).
  exists items. split; [exact H|]. split; [exact Hscript|].
  split; [exact Hbytes|].
  vm_compute in Hscript. injection Hscript as <-. reflexivity.
Defined.

Lemma written_bytes_arrive_witness :
  frame_layout ShiftRegLCD_h /\ Forall is_u8 [0x48; 0x69] /\
  exists t,
    session (map Write [0x48; 0x69]) example_object =
    Some (tt, example_object, t) /\
    transmitted (_enable_pin example_object) t = [(true, 0x48); (true, 0x69)].
Proof.
  assert (Hl : frame_layout ShiftRegLCD_h) by (split; reflexivity).
  assert (Hb : Forall is_u8 [0x48; 0x69])
    by (repeat constructor; unfold is_u8; lia).
  split; [exact Hl|]. split; [exact Hb|].
  exact (written_bytes_arrive ShiftRegLCD_h [0x48; 0x69] example_object Hl Hb).
Defined.

Lemma session_waits_op_delays_witness :
  exists s' t,
    session [Clear; CreateChar 1 [0; 0; 0; 0; 0; 0; 0; 0]; Write 1]
      example_object = Some (tt, s', t) /\
    total_delay t = 2042 + (420 + (42 + 0)).
Proof.
  eexists. eexists.
  assert (H : session [Clear; CreateChar 1 [0; 0; 0; 0; 0; 0; 0; 0]; Write 1]
                example_object = Some (tt, ?[s], ?[t]))
    by (vm_compute; reflexivity).
  split; [exact H|].
  exact (session_waits_op_delays ShiftRegLCD_h _ example_object _ _ H).
Defined.

Lemma init_forgets_prior_object_witness :
  (2 >? 1) = (4 >? 1) /\ (0 =? 0) = (0 =? 0) /\
  init 11 12 10 2 0 example_object =
  init 11 12 10 4 0 (mkShiftRegLCD 0 0 0 0 0 0 0 0).
Proof.
  split; [reflexivity|]. split; [reflexivity|].
  exact (init_forgets_prior_object ShiftRegLCD_h 11 12 10 2 0 4 0
           example_object (mkShiftRegLCD 0 0 0 0 0 0 0 0) eq_refl eq_refl).
Defined.

Lemma constructors_default_to_5x8_witness :
  0 <= 1 /\
  ShiftRegLCD3 11 12 10 example_object =
  ShiftRegLCD5 11 12 10 0 0 (mkShiftRegLCD 0 0 0 0 0 0 0 0) /\
  ShiftRegLCD4 11 12 10 4 example_object =
  ShiftRegLCD5 11 12 10 4 0 (mkShiftRegLCD 0 0 0 0 0 0 0 0).
Proof.
  assert (H : 0 <= 1) by lia.
  split; [exact H|].
  exact (constructors_default_to_5x8 ShiftRegLCD_h 11 12 10 0 4 example_object
           (mkShiftRegLCD 0 0 0 0 0 0 0 0) H).
Defined.

Lemma init4bits_latches_high_nibble_witness :
  frame_layout ShiftRegLCD_h /\ is_u8 0x30 /\
  exists frame t,
    init4bits 0x30 example_object = Some (tt, example_object, t) /\
    frames (_enable_pin example_object) 0 t = [frame] /\
    frame_data frame = Z.shiftr 0x30 4 /\
    frame_rs frame = false.
Proof.
  assert (Hl : frame_layout ShiftRegLCD_h) by (split; reflexivity).
  assert (Hv : is_u8 0x30) by (unfold is_u8; lia).
  split; [exact Hl|]. split; [exact Hv|].
  exact (init4bits_latches_high_nibble ShiftRegLCD_h example_object 0x30 0
           Hl Hv).
Defined.

Lemma createChar_location_mod_8_witness :
  250 mod 8 = 2 mod 8 /\
  createChar 250 [1; 2; 3; 4; 5; 6; 7; 8] example_object =
  createChar 2 [1; 2; 3; 4; 5; 6; 7; 8] example_object.
Proof.
  split; [reflexivity|].
  exact (createChar_location_mod_8 ShiftRegLCD_h 250 2 [1; 2; 3; 4; 5; 6; 7; 8]
           example_object eq_refl).
Defined.

Lemma setCursor_within_numlines_witness :
  3 <= _numlines example_object /\ 0 <= 3 < 4 /\
  setCursor 5 3 example_object =
  Some (tt, example_object,
        send_trace (u8 (Z.lor LCD_SETDDRAMADDR (5 + 0x54))) LOW example_object).
Proof.
  assert (H1 : 3 <= _numlines example_object) by (cbn; lia).
  assert (H2 : 0 <= 3 < 4) by lia.
  split; [exact H1|]. split; [exact H2|].
  exact (setCursor_within_numlines ShiftRegLCD_h 5 3 example_object H1 H2).
Defined.

Lemma operations_keep_configuration_witness :
  exists s' t,
    exec (Switch Cursor) example_object = Some (tt, s', t) /\
    wiring s' = wiring example_object /\
    _numlines s' = _numlines example_object /\
    _displayfunction s' = _displayfunction example_object /\
    (forall m, op_mask (Switch Cursor) <> Some m ->
               cached m s' = cached m example_object).
Proof.
  eexists. eexists.
  assert (H : exec (Switch Cursor) example_object = Some (tt, ?[s], ?[t]))
    by (vm_compute; reflexivity).
  split; [exact H|].
  exact (operations_keep_configuration ShiftRegLCD_h (Switch Cursor)
           example_object _ _ H).
Defined.

Lemma setCursor_total_iff_numlines_1_to_3_witness :
  is_u8 (_numlines example_object) /\
  ((forall col row, is_u8 row -> setCursor col row example_object <> None) <->
   1 <= _numlines example_object <= 3).
Proof.
  assert (H : is_u8 (_numlines example_object)) by (unfold is_u8; cbn; lia).
  split; [exact H|].
  exact (setCursor_total_iff_numlines_1_to_3 ShiftRegLCD_h example_object H).
Defined.

End MoreOnTheHD44780.

(** * The cached masks over the life of the object *)




Section CarriedProofs.
Context {hdr : Header}.



End CarriedProofs.

Section LifeOnTheHD44780.
#[local] Existing Instance ShiftRegLCD_h.









End LifeOnTheHD44780.

(** A raw [command] can tell the controller something the cache does not
    know: after [cursor()] and [command(0x08)] the cached display-control
    mask still has display and cursor on, while the last display-control
    command received turned both off. *)
Lemma raw_command_overrides_the_cache :
  exists s t,
    @session ShiftRegLCD_h [Switch Cursor; Command 0x08] example_object =
    Some (tt, s, t) /\
    _displaycontrol s = 0x06 /\
    @last_carried ShiftRegLCD_h DisplayControl
      (transmitted (_enable_pin example_object) t) 0 = 0x08.
Proof. do 2 eexists. split; [vm_compute; reflexivity|]. split; reflexivity. Qed.


Section MasksOnTheHD44780.
#[local] Existing Instance ShiftRegLCD_h.


End MasksOnTheHD44780.
